(** * Legislative-impact pipeline: a shallow embedding of agents 02..06

    The Python pipeline under [analyseur_loi/agents] is embedded stage by
    stage, one module per agent class.  Python [int]/[float] values that only
    go through comparisons, sums, products and quotients are modelled as exact
    rationals [Q]; the logistic curve of agent 05 needs a power with a
    fractional exponent and is modelled over the reals [R].  Python [dict]s are
    [gmap]s, except where the iteration order of the dictionary decides the
    result (the ticker table of agent 02, the keyword tables of agent 03),
    where an association list keeps the insertion order. *)

From Stdlib Require Import QArith Qabs Reals Psatz Lia List String Ascii.
From Stdlib Require PrimFloat Uint63.
From stdpp Require Import gmap strings.
Import ListNotations.

Local Open Scope string_scope.
Local Open Scope Q_scope.
Local Open Scope list_scope.

(** ** Python built-ins used by the agents *)

Module Py.

(** [a < b] on rationals, as a boolean. *)
Definition Qltb (a b : Q) : bool := negb (Qle_bool b a).

(** [max(a, b)]: Python keeps the first argument unless the second is
    strictly larger. *)
Definition max (a b : Q) : Q := if Qltb a b then b else a.

(** [min(a, b)]: Python keeps the first argument unless the second is
    strictly smaller. *)
Definition min (a b : Q) : Q := if Qltb b a then b else a.

(** [sum(xs)] *)
Definition sum (xs : list Q) : Q := fold_left Qplus xs 0.

(** [len(xs)] as a number. *)
Definition len {A} (xs : list A) : Q := inject_Z (Z.of_nat (List.length xs)).

(** [any(p(x) for x in xs)] *)
Definition any {A} (p : A -> bool) (xs : list A) : bool := existsb p xs.

(** [x in xs] for a list of strings. *)
Definition in_list (x : string) (xs : list string) : bool :=
  existsb (String.eqb x) xs.

(** [x or y] on lists: the first operand unless it is empty. *)
Definition or_list {A} (x y : list A) : list A :=
  match x with [] => y | _ => x end.

(** [c.lower()] and [c.upper()] on one character; the text is modelled as
    a sequence of 8-bit characters and only the ASCII letters have a case. *)
Definition lower_char (c : ascii) : ascii :=
  let n := nat_of_ascii c in
  if (65 <=? n)%nat && (n <=? 90)%nat then ascii_of_nat (n + 32) else c.

Definition upper_char (c : ascii) : ascii :=
  let n := nat_of_ascii c in
  if (97 <=? n)%nat && (n <=? 122)%nat then ascii_of_nat (n - 32) else c.

(** [s.lower()], [s.upper()] *)
Fixpoint lower (s : string) : string :=
  match s with
  | EmptyString => EmptyString
  | String c s' => String (lower_char c) (lower s')
  end.

Fixpoint upper (s : string) : string :=
  match s with
  | EmptyString => EmptyString
  | String c s' => String (upper_char c) (upper s')
  end.

(** [keyword in text] for strings: [keyword] occurs at some position. *)
Fixpoint str_in (keyword text : string) : bool :=
  String.prefix keyword text ||
  match text with
  | EmptyString => false
  | String _ rest => str_in keyword rest
  end.

(** [range(start, stop)] *)
Definition range (start stop : Z) : list Z :=
  map (fun k => (start + Z.of_nat k)%Z) (seq 0 (Z.to_nat (stop - start))).

(** [max(a, b)] and [sum(xs)] on real numbers. *)
Definition rmax (a b : R) : R := if Rlt_dec a b then b else a.


(** [s[:n]] *)
Definition slice_to (n : nat) (s : string) : string := String.substring 0 n s.

(** [s.replace(old, new)] for one-character [old] and [new]. *)
Fixpoint replace_char (old new : ascii) (s : string) : string :=
  match s with
  | EmptyString => EmptyString
  | String c rest =>
      String (if Ascii.eqb c old then new else c) (replace_char old new rest)
  end.

(** [c.isalpha()] on an ASCII character: the cased characters. *)
Definition is_cased (c : ascii) : bool :=
  let n := nat_of_ascii c in
  ((65 <=? n)%nat && (n <=? 90)%nat) || ((97 <=? n)%nat && (n <=? 122)%nat).

(** [s.title()]: a cased character is put in upper case when the one before
    it is not cased, and in lower case otherwise. *)
Fixpoint title_from (previous_is_cased : bool) (s : string) : string :=
  match s with
  | EmptyString => EmptyString
  | String c rest =>
      String (if previous_is_cased then lower_char c else upper_char c)
             (title_from (is_cased c) rest)
  end.

Definition title (s : string) : string := title_from false s.

End Py.

(** ** Agent 02: [SectorClassifier] *)

Module SectorClassifier.

(** The dictionary [ticker_sectors] of [_create_sector_taxonomy], in
    insertion order. *)
Definition ticker_sectors : list (string * list string) :=
  [
    ("technology",
      [
        "NVDA"; "MSFT"; "AAPL"; "AMZN"; "META"; "AVGO"; "GOOGL"; "GOOG"; "TSLA";
        "ORCL"; "CRM"; "IBM"; "INTU"; "NOW"; "TXN"; "ANET"; "QCOM"; "ACN"; "AMAT";
        "ADBE"; "MU"; "LRCX"; "KLAC"; "ADI"; "PANW"; "SNPS"; "CDNS"; "DELL"; "CRWD";
        "INTC"; "PTC"; "VRSN"; "TYL"; "TTD"; "NTAP"; "CDW"; "ADSK"; "WDAY"; "NXPI";
        "FTNT"; "AXON"; "DDOG"; "EPAM"; "GDDY"; "FFIV"; "TRMB"; "IT"; "SMCI"; "HPE";
        "HPQ"; "CTSH"; "AKAM"; "PAYC"; "CPAY"; "KEYS"; "MCHP"; "ON"; "SWKS"; "TER";
        "ZBRA"; "AMD"; "CSCO"; "ADP" ]);
    ("healthcare",
      [
        "LLY"; "UNH"; "JNJ"; "ABBV"; "MRK"; "TMO"; "ABT"; "ISRG"; "AMGN"; "BSX";
        "DHR"; "GILD"; "SYK"; "PFE"; "VRTX"; "BMY"; "MDT"; "REGN"; "HCA"; "CVS";
        "CI"; "HUM"; "ELV"; "BIIB"; "ZTS"; "DXCM"; "IDXX"; "IQV"; "PODD"; "LH";
        "VTRS"; "BAX"; "BDX"; "RMD"; "ALGN"; "MRNA"; "WAT"; "INCY"; "RVTY"; "WBA";
        "DVA"; "MOH"; "HSIC"; "CRL" ]);
    ("financial",
      [
        "BRK,B"; "JPM"; "V"; "MA"; "WFC"; "MS"; "GS"; "BLK"; "SCHW"; "C"; "SPGI";
        "AXP"; "COF"; "BX"; "KKR"; "PNC"; "AJG"; "BK"; "FI"; "USB"; "TFC"; "CME";
        "ICE"; "MCO"; "NDAQ"; "CBOE"; "TRV"; "PGR"; "AFL"; "ALL"; "CB"; "AON"; "MMC";
        "AIG"; "PRU"; "MET"; "AMP"; "CINF"; "WRB"; "STT"; "NTRS"; "RF"; "FITB";
        "HBAN"; "KEY"; "CFG"; "MTB"; "STZ"; "RJF"; "BRO"; "TROW"; "BEN"; "IVZ"; "BAC" ]);
    ("energy",
      [
        "XOM"; "CVX"; "COP"; "EOG"; "SLB"; "PSX"; "MPC"; "VLO"; "OXY"; "KMI"; "WMB";
        "OKE"; "TRGP"; "BKR"; "HAL"; "DVN"; "FANG"; "EQT"; "APA"; "CTRA" ]);
    ("consumer_discretionary",
      [
        "BKNG"; "HD"; "MCD"; "NKE"; "LOW"; "TJX"; "SBUX"; "ABNB"; "MAR"; "RCL";
        "ORLY"; "AZO"; "YUM"; "CMG"; "ROST"; "TGT"; "DECK"; "DPZ"; "ULTA"; "LULU";
        "BBY"; "DRI"; "DLTR"; "GM"; "F"; "TSCO"; "LVS"; "WYNN"; "MGM"; "CCL"; "NCLH";
        "HAS"; "LUV"; "UAL"; "DAL"; "EXPE"; "APTV"; "TPR"; "RL"; "CHRW"; "EXPD";
        "KMX"; "LKQ"; "MHK"; "WHR"; "POOL" ]);
    ("industrials",
      [
        "CAT"; "RTX"; "BA"; "UNP"; "DE"; "HON"; "APH"; "LMT"; "GD"; "NOC"; "MMM";
        "TDG"; "ETN"; "ITW"; "EMR"; "PH"; "CARR"; "CMI"; "FDX"; "UPS"; "GWW"; "FAST";
        "PWR"; "ROK"; "DOV"; "SWK"; "TXT"; "ALLE"; "JCI"; "OTIS"; "IR"; "ODFL";
        "JBHT"; "CHRW"; "EXPD"; "LDOS"; "LHX"; "HII"; "TKO"; "GNRC"; "WSM"; "BLDR";
        "PHM"; "LEN"; "DHI"; "NVR"; "TOL" ]);
    ("materials",
      [
        "LIN"; "APD"; "SHW"; "ECL"; "FCX"; "NEM"; "VMC"; "MLM"; "NUE"; "STLD"; "DOW";
        "LYB"; "CF"; "MOS"; "ALB"; "IFF"; "PKG"; "AMCR"; "WY"; "IP"; "PPG"; "EMN";
        "BG"; "BALL"; "AVY" ]);
    ("real_estate",
      [
        "PLD"; "AMT"; "CCI"; "EQIX"; "PSA"; "EXR"; "WELL"; "DLR"; "O"; "VICI"; "SPG";
        "AVB"; "EQR"; "VTR"; "ESS"; "MAA"; "UDR"; "CPT"; "HST"; "ARE"; "INVH"; "BXP";
        "KIM"; "REG"; "FRT" ]);
    ("telecommunications",
      [
        "TMUS"; "VZ"; "T"; "CHTR"; "CMCSA"; "NFLX"; "DIS"; "WBD"; "FOXA"; "FOX";
        "NWSA"; "NWS"; "SBAC"; "TTWO"; "EA"; "LYV"; "MTCH"; "RVTY" ]);
    ("consumer_staples",
      [
        "PG"; "KO"; "PEP"; "COST"; "WMT"; "PM"; "MO"; "MDLZ"; "CL"; "KMB"; "GIS";
        "K"; "HSY"; "MKC"; "SJM"; "CPB"; "CAG"; "KHC"; "KDP"; "CHD"; "CLX"; "TAP";
        "HRL"; "TSN"; "ADM"; "BF,B"; "STZ" ]);
    ("utilities",
      [
        "NEE"; "SO"; "CEG"; "DUK"; "AEP"; "EXC"; "XEL"; "PEG"; "ED"; "ETR"; "WEC";
        "PPL"; "D"; "PCG"; "SRE"; "AEE"; "CMS"; "DTE"; "EIX"; "NI"; "LNT"; "EVRG";
        "CNP"; "ATO"; "NRG"; "VST"; "FE"; "ES"; "PNW"; "AWK"; "AES" ]) ].

(** [_classify_unknown_ticker] *)
Definition _classify_unknown_ticker (ticker : string) : string :=
  let tech_patterns := ["TECH"; "SOFT"; "DATA"; "CYBER"; "AI"; "CLOUD"] in
  let health_patterns := ["BIO"; "PHARM"; "MED"; "HEALTH"; "DRUG"] in
  let finance_patterns := ["BANK"; "FUND"; "INVEST"; "CAPITAL"; "CREDIT"] in
  let energy_patterns := ["OIL"; "GAS"; "ENERGY"; "PETRO"; "SOLAR"] in
  let ticker_upper := Py.upper ticker in
  if Py.any (fun pattern => Py.str_in pattern ticker_upper) tech_patterns then
    "technology"
  else if Py.any (fun pattern => Py.str_in pattern ticker_upper) health_patterns then
    "healthcare"
  else if Py.any (fun pattern => Py.str_in pattern ticker_upper) finance_patterns then
    "financial"
  else if Py.any (fun pattern => Py.str_in pattern ticker_upper) energy_patterns then
    "energy"
  else if (String.length ticker <=? 3)%nat then "industrials"
  else "consumer_discretionary".

(** The loop of [_assign_sector_by_ticker]: the first sector, in the order
    of the dictionary, whose list has the ticker. *)
Fixpoint first_listing (ticker : string) (entries : list (string * list string))
    : option string :=
  match entries with
  | [] => None
  | (sector, tickers) :: rest =>
      if Py.in_list ticker tickers then Some sector
      else first_listing ticker rest
  end.

(** [_assign_sector_by_ticker] *)
Definition _assign_sector_by_ticker
    (ticker : string) (ticker_sectors : list (string * list string)) : string :=
  match first_listing ticker ticker_sectors with
  | Some sector => sector
  | None => _classify_unknown_ticker ticker
  end.

(** Every (sector, ticker) pair of a table: one per occurrence of a
    ticker in a sector's list. *)
Definition listings (entries : list (string * list string)) : list (string * string) :=
  flat_map (fun entry => map (fun ticker => (fst entry, ticker)) (snd entry)) entries.

(** The pairs of the table that sit behind an earlier list with the same
    ticker. *)
Definition shadowed_listings : list (string * string) :=
  [ ("industrials", "CHRW"); ("industrials", "EXPD");
    ("telecommunications", "RVTY"); ("consumer_staples", "STZ") ].

(** A company of [01_portfolio_data.json]; a field is [None] when the record
    has no such key. *)
Record company_data := {
  data_ticker : option string;
  data_company_name : option string;
  data_market_cap : option Q;
  data_business_description : option string
}.

Record portfolio_data := {
  data_companies : option (list company_data)
}.

(** The dictionary [company_info] of [_create_sector_taxonomy]. *)
Record company_info := {
  ticker : string;
  company_name : string;
  market_cap : Q;
  sector_weight_percent : Q;
  business_summary : string
}.

Record sector := {
  sector_id : string;
  sector_name : string;
  description : string;
  total_market_cap : Q;
  companies_count : nat;
  value_chain_description : string;
  companies : list company_info
}.

(** [_get_value_chain_description]; the arrows of the source are kept as
    their UTF-8 bytes. *)
Definition _get_value_chain_description (sector_id : string) : string :=
  let descriptions : gmap string string :=
    list_to_map
      [ ("technology",
           "R&D → Product Development → Manufacturing → Distribution → Support");
        ("healthcare",
           "Research → Clinical Trials → Manufacturing → Distribution → Patient Care");
        ("financial",
           "Capital Acquisition → Risk Assessment → Product Creation → Distribution → Service");
        ("energy", "Exploration → Extraction → Refining → Distribution → Retail");
        ("consumer_discretionary",
           "Design → Manufacturing → Marketing → Retail → After-sales");
        ("industrials",
           "Raw Materials → Manufacturing → Assembly → Distribution → Maintenance");
        ("materials",
           "Extraction → Processing → Manufacturing → Distribution → Application");
        ("real_estate",
           "Development → Construction → Marketing → Sales/Leasing → Management");
        ("telecommunications",
           "Infrastructure → Network → Service Delivery → Customer Support");
        ("consumer_staples",
           "Sourcing → Manufacturing → Distribution → Retail → Consumption");
        ("utilities",
           "Generation → Transmission → Distribution → Customer Service → Maintenance") ] in
  default "Generic value chain" (descriptions !! sector_id).

(** The [company_info] built for one company (lines 74-80). *)
Definition company_info_of (company : company_data) : company_info :=
  let business_description := default "" (data_business_description company) in
  {| ticker := default "" (data_ticker company);
     company_name := default "" (data_company_name company);
     market_cap := default 0 (data_market_cap company);
     sector_weight_percent := 0;
     business_summary :=
       if (200 <? String.length business_description)%nat
       then String.append (Py.slice_to 200 business_description) "..."
       else business_description |}.

(** [sector_companies[key].append(info)] on the [defaultdict(list)], whose
    keys stay in the order of their first use. *)
Fixpoint group_append (key : string) (info : company_info)
    (groups : list (string * list company_info)) : list (string * list company_info) :=
  match groups with
  | [] => [(key, [info])]
  | (k, infos) :: rest =>
      if String.eqb k key then (k, infos ++ [info]) :: rest
      else (k, infos) :: group_append key info rest
  end.

(** The dictionary [sector_companies] after the first loop (lines 70-82). *)
Definition classify_companies (companies : list company_data)
    : list (string * list company_info) :=
  fold_left
    (fun groups company =>
       let info := company_info_of company in
       group_append (_assign_sector_by_ticker (ticker info) ticker_sectors) info groups)
    companies [].

(** The body of the second loop (lines 85-102) for one sector. *)
Definition build_sector (group : string * list company_info) : sector :=
  let sector_id := fst group in
  let total_market_cap := Py.sum (map market_cap (snd group)) in
  let companies :=
    map (fun company =>
           if Py.Qltb 0 total_market_cap then
             {| ticker := ticker company;
                company_name := company_name company;
                market_cap := market_cap company;
                sector_weight_percent := (market_cap company / total_market_cap) * 100;
                business_summary := business_summary company |}
           else company)
        (snd group) in
  {| sector_id := sector_id;
     sector_name := Py.title (Py.replace_char "_" " " sector_id);
     description :=
       String.append "Companies operating in "
         (String.append (Py.replace_char "_" " " sector_id) " sector");
     total_market_cap := total_market_cap;
     companies_count := List.length companies;
     value_chain_description := _get_value_chain_description sector_id;
     companies := companies |}.

(** [_create_sector_taxonomy] *)
Definition _create_sector_taxonomy (data : portfolio_data) : list sector :=
  map build_sector (classify_companies (default [] (data_companies data))).

(** The eleven sector identifiers. *)
Definition eleven_sectors : list string :=
  [ "technology"; "healthcare"; "financial"; "energy"; "consumer_discretionary";
    "industrials"; "materials"; "real_estate"; "telecommunications";
    "consumer_staples"; "utilities" ].

End SectorClassifier.

(** ** Agent 03: [LegislativeImpactAnalyzer] *)

Module LegislativeImpactAnalyzer.

Record law := {
  law_id : string;
  law_title : string;
  implementation_date : string;
  content : string;
  key_themes : list string;
  key_measures : list string
}.

(** A sector of [02_sector_taxonomy.json], with the fields agent 03 reads. *)
Record sector := {
  sector_id : string;
  sector_name : string
}.

(** The two keyword dictionaries of [_extract_themes_and_measures], in
    insertion order (the order in which [.items()] yields them). *)
Definition theme_keywords : list (string * list string) :=
  [ ("environmental_regulation",
       ["environment"; "carbon"; "emission"; "climate"; "green"; "renewable"]);
    ("financial_regulation",
       ["bank"; "financial"; "credit"; "investment"; "capital"; "risk"]);
    ("technology_regulation",
       ["data"; "privacy"; "digital"; "technology"; "artificial intelligence"; "ai"]);
    ("healthcare_regulation",
       ["health"; "medical"; "pharmaceutical"; "drug"; "patient"]);
    ("taxation", ["tax"; "fiscal"; "revenue"; "levy"; "duty"]);
    ("trade_regulation", ["trade"; "import"; "export"; "tariff"; "commerce"]) ].

Definition measure_keywords : list (string * list string) :=
  [ ("tax_increase", ["increase tax"; "higher tax"; "tax rate"]);
    ("new_compliance", ["compliance"; "requirement"; "must comply"]);
    ("reporting_obligation", ["report"; "disclosure"; "publish"]);
    ("penalty", ["penalty"; "fine"; "sanction"]);
    ("subsidy", ["subsidy"; "incentive"; "support"]);
    ("restriction", ["restrict"; "prohibit"; "ban"; "limit"]) ].

(** The detection loop shared by themes and measures: keep the names whose
    keyword list has a keyword occurring in the text. *)
Definition detect (table : list (string * list string)) (content_lower : string)
    : list string :=
  map fst
    (List.filter (fun entry => Py.any (fun keyword => Py.str_in keyword content_lower)
                                 (snd entry))
            table).

(** [_extract_themes_and_measures] *)
Definition _extract_themes_and_measures (content : string)
    : list string * list string :=
  let content_lower := Py.lower content in
  let detected_themes := detect theme_keywords content_lower in
  let detected_measures := detect measure_keywords content_lower in
  (Py.or_list detected_themes ["general_regulation"],
   Py.or_list detected_measures ["compliance_requirement"]).

(** The theme x sector matrix of [_calculate_impact_coefficient]. *)
Definition theme_impacts : gmap string (gmap string Q) :=
  list_to_map
    [ ("environmental_regulation",
         list_to_map
           [ ("energy", 9); ("materials", 8); ("industrials", 7); ("utilities", 8);
             ("consumer_discretionary", 4); ("technology", 3);
             ("consumer_staples", 2) ]);
      ("financial_regulation",
         list_to_map
           [ ("financial", 9); ("real_estate", 6); ("technology", 4);
             ("consumer_discretionary", 3); ("consumer_staples", 2) ]);
      ("technology_regulation",
         list_to_map
           [ ("technology", 9); ("telecommunications", 8); ("financial", 5);
             ("consumer_discretionary", 4); ("consumer_staples", 2) ]);
      ("healthcare_regulation",
         list_to_map
           [ ("healthcare", 9); ("consumer_staples", 2); ("technology", 3) ]);
      ("taxation",
         list_to_map
           [ ("financial", 7); ("technology", 6); ("healthcare", 5);
             ("energy", 6); ("industrials", 5); ("consumer_staples", 2) ]);
      ("trade_regulation",
         list_to_map
           [ ("industrials", 8); ("materials", 7); ("technology", 6);
             ("consumer_discretionary", 7); ("consumer_staples", 2) ]) ].

Definition measure_modifiers_table : list (string * Q) :=
  [ ("tax_increase", -1); ("penalty", -1); ("restriction", -2);
    ("subsidy", 2); ("new_compliance", -1) ].

Definition measure_modifiers : gmap string Q :=
  list_to_map measure_modifiers_table.

(** One round of the loop over [law['key_themes']] (lines 242-246). *)
Definition score_theme (sid : string) (base_score : Q) (theme : string) : Q :=
  match theme_impacts !! theme with
  | Some sector_impacts =>
      match sector_impacts !! sid with
      | Some impact => Py.max base_score impact
      | None => base_score
      end
  | None => base_score
  end.

(** [base_score] after the loop over the themes, before any adjustment. *)
Definition theme_base_score (themes : list string) (sid : string) : Q :=
  fold_left (score_theme sid) themes 1.

(** One round of the loop over [law['key_measures']] (lines 261-263). *)
Definition apply_measure (base_score : Q) (measure : string) : Q :=
  match measure_modifiers !! measure with
  | Some modifier => base_score + modifier
  | None => base_score
  end.

(** [_calculate_impact_coefficient] *)
Definition _calculate_impact_coefficient (l : law) (s : sector) : Q :=
  let base_score := theme_base_score (key_themes l) (sector_id s) in
  let base_score :=
    if String.eqb (sector_id s) "consumer_staples"
    then Py.max 1 (base_score * 0.5)
    else base_score in
  let base_score := fold_left apply_measure (key_measures l) base_score in
  Py.max 1 (Py.min base_score 10).

(** The six theme and the six measure categories of the data model, as
    the [Law] entity enumerates them. *)
Definition six_themes : list string :=
  [ "environmental_regulation"; "financial_regulation"; "technology_regulation";
    "healthcare_regulation"; "taxation"; "trade_regulation" ].

Definition six_measures : list string :=
  [ "tax_increase"; "new_compliance"; "reporting_obligation"; "penalty";
    "subsidy"; "restriction" ].

Record external_source := {
  source : string;
  url : string;
  key_finding : string
}.

(** An entry of ["sector_impacts"], without its ["rationale"], whose text
    prints the coefficient as a decimal number. *)
Record sector_impact := {
  impact_sector_id : string;
  impact_sector_name : string;
  impact_coefficient : Q;
  impact_type : string;
  historical_precedents : list string;
  external_sources : list external_source
}.

Record law_analysis := {
  analysis_law_id : string;
  analysis_law_title : string;
  analysis_implementation_date : string;
  analysis_key_themes : list string;
  analysis_key_measures : list string;
  sector_impacts : list sector_impact
}.

(** The local [impact_direction] of [_generate_rationale] (line 268). *)
Definition rationale_direction (coefficient : Q) : string :=
  if Qle_bool 6 coefficient then "positive"
  else if Qle_bool coefficient 4 then "negative"
  else "neutral".

(** The local [divergence_factors] of [_generate_rationale] (lines 271-280). *)
Definition divergence_factors (l : law) (coefficient : Q) : list string :=
  (if Qle_bool 8 coefficient then ["high regulatory exposure"]
   else if Qle_bool coefficient 3 then ["limited regulatory impact"]
   else [])
  ++ (if Py.in_list "tax" (key_measures l) then ["direct tax implications"] else [])
  ++ (if Py.in_list "compliance" (key_measures l) then ["compliance cost burden"] else []).

(** [_find_historical_precedents] *)
Definition _find_historical_precedents (l : law) (s : sector) : list string :=
  let precedents : gmap string string :=
    list_to_map
      [ ("environmental_regulation",
           String.concat "" ["Paris Agreement 2015 impacted "; sector_name s;
                             " by -12% initially, +8% long-term"]);
        ("financial_regulation",
           String.concat "" ["Dodd-Frank 2010 affected "; sector_name s;
                             " by -18% over 2 years"]);
        ("technology_regulation",
           String.concat "" ["GDPR 2018 impacted "; sector_name s;
                             " by -5% compliance costs"]);
        ("healthcare_regulation",
           String.concat "" ["ACA 2010 affected "; sector_name s;
                             " by +15% market expansion"]) ] in
  let relevant_precedents :=
    flat_map (fun theme => match precedents !! theme with
                           | Some precedent => [precedent]
                           | None => []
                           end)
             (key_themes l) in
  Py.or_list relevant_precedents
    [String.concat "" ["Limited historical data for "; sector_name s; " sector"]].

(** [_get_external_sources] *)
Definition _get_external_sources (l : law) (s : sector) : list external_source :=
  [ {| source := "Bloomberg Intelligence";
       url := "https://bloomberg.com/professional/solution/bloomberg-intelligence/";
       key_finding :=
         String.concat "" ["Regulatory impact analysis for "; sector_name s; " sector"] |};
    {| source := "McKinsey Global Institute";
       url := "https://mckinsey.com/mgi";
       key_finding :=
         String.concat "" ["Sector transformation study - "; sector_name s] |} ].

(** The body of the loop of [_analyze_single_law] for one sector: the impact
    that is appended, if any. *)
Definition analyze_sector (min_impact_coefficient : Q) (l : law) (s : sector)
    : list sector_impact :=
  let impact_coefficient := _calculate_impact_coefficient l s in
  if Qle_bool min_impact_coefficient impact_coefficient then
    [ {| impact_sector_id := sector_id s;
         impact_sector_name := sector_name s;
         impact_coefficient := impact_coefficient;
         impact_type := if Qle_bool 7 impact_coefficient then "direct" else "indirect";
         historical_precedents := _find_historical_precedents l s;
         external_sources := _get_external_sources l s |} ]
  else [].

(** [_analyze_single_law]; [min_impact_coefficient] is
    [config['execution_parameters']['min_impact_coefficient']]. *)
Definition _analyze_single_law
    (min_impact_coefficient : Q) (l : law) (sectors : list sector) : law_analysis :=
  {| analysis_law_id := law_id l;
     analysis_law_title := law_title l;
     analysis_implementation_date := implementation_date l;
     analysis_key_themes := key_themes l;
     analysis_key_measures := key_measures l;
     sector_impacts := flat_map (analyze_sector min_impact_coefficient l) sectors |}.

End LegislativeImpactAnalyzer.

(** ** Agent 04: [MonetaryFlowModeler] *)

Module MonetaryFlowModeler.

(** A sector of [02_sector_taxonomy.json], with the fields agent 04 reads. *)
Record sector := {
  sector_id : string;
  sector_name : string;
  total_market_cap : Q;
  value_chain_description : option string
}.

(** An entry of a law's ["sector_impacts"]. *)
Record sector_impact := {
  impact_sector_id : string;
  impact_coefficient : Q
}.

Record law_analysis := {
  law_id : string;
  sector_impacts : list sector_impact
}.

Record flow_leg := {
  leg_sector_id : string;
  amount : Q;
  rationale : string
}.

Record monetary_impact := {
  capital_inflow : Q;
  capital_outflow : Q;
  net_change : Q;
  source_sectors : list flow_leg;
  destination_sectors : list flow_leg
}.

Record rate_sensitivity := {
  sensitivity_score : Q;
  impact_description : string
}.

Record sector_flow := {
  flow_sector_id : string;
  flow_sector_name : string;
  current_market_cap : Q;
  value_creation_sources : list string;
  value_chain : string;
  impact_direction : string;
  flow_monetary_impact : monetary_impact;
  interest_rate_sensitivity : rate_sensitivity
}.

(** [_determine_impact_direction] *)
Definition _determine_impact_direction (coefficient : Q) : string :=
  if Qle_bool 6 coefficient then "growth"
  else if Qle_bool coefficient 4 then "decline"
  else "stagnation".

(** The local [impact_rate] of [_calculate_monetary_impact]: the
    [if]/[elif] chain of lines 123-132. *)
Definition impact_rate (coefficient : Q) : Q :=
  if Qle_bool 8 coefficient then 0.15
  else if Qle_bool 6 coefficient then 0.08
  else if Qle_bool coefficient 2 then -0.20
  else if Qle_bool coefficient 4 then -0.12
  else 0.02.

(** [_calculate_monetary_impact]; [all_sectors] is received and not used,
    as in the source. *)
Definition _calculate_monetary_impact
    (market_cap coefficient : Q) (all_sectors : list sector) : monetary_impact :=
  let capital_change := market_cap * impact_rate coefficient in
  let growing := Py.Qltb 0 capital_change in
  {| capital_inflow := Py.max 0 capital_change;
     capital_outflow := Py.max 0 (- capital_change);
     net_change := capital_change;
     source_sectors :=
       if growing then
         [ {| leg_sector_id := "external_investment";
              amount := capital_change * 0.6;
              rationale := "New institutional investment" |};
           {| leg_sector_id := "sector_rotation";
              amount := capital_change * 0.4;
              rationale := "Capital rotation from other sectors" |} ]
       else [];
     destination_sectors :=
       if growing then []
       else
         [ {| leg_sector_id := "defensive_assets";
              amount := Qabs capital_change * 0.5;
              rationale := "Flight to defensive assets" |};
           {| leg_sector_id := "alternative_sectors";
              amount := Qabs capital_change * 0.5;
              rationale := "Reallocation to less impacted sectors" |} ] |}.

(** [_get_value_creation_sources] *)
Definition _get_value_creation_sources (s : sector) : list string :=
  let sources_map : gmap string (list string) :=
    list_to_map
      [ ("technology", ["Innovation"; "Scalability"; "Network effects"]);
        ("healthcare", ["R&D"; "Patents"; "Regulatory moats"]);
        ("financial", ["Interest margins"; "Fee income"; "Risk management"]);
        ("energy", ["Resource extraction"; "Infrastructure"; "Market position"]) ] in
  default ["Operations"; "Market share"; "Efficiency"] (sources_map !! sector_id s).

(** [_calculate_rate_sensitivity] *)
Definition _calculate_rate_sensitivity (sid : string) : rate_sensitivity :=
  let sensitivity_map : gmap string rate_sensitivity :=
    list_to_map
      [ ("financial", {| sensitivity_score := 0.8;
                         impact_description := "Highly sensitive to rate changes" |});
        ("real_estate", {| sensitivity_score := 0.7;
                           impact_description := "Very sensitive to rate changes" |});
        ("technology", {| sensitivity_score := -0.3;
                          impact_description := "Moderately inverse sensitive" |});
        ("utilities", {| sensitivity_score := -0.5;
                         impact_description := "Inverse sensitive to rates" |}) ] in
  default {| sensitivity_score := 0.0; impact_description := "Neutral sensitivity" |}
          (sensitivity_map !! sid).

(** One round of the inner loop of lines 72-76: create the key with an
    empty list when it is absent, then append. *)
Definition record_impact
    (acc : gmap string (list sector_impact)) (imp : sector_impact)
    : gmap string (list sector_impact) :=
  let sid := impact_sector_id imp in
  let acc' := match acc !! sid with None => <[sid := []]> acc | Some _ => acc end in
  <[sid := default [] (acc' !! sid) ++ [imp]]> acc'.

(** The dictionary [sector_impacts] built by lines 70-76. *)
Definition collect_sector_impacts (laws_analyzed : list law_analysis)
    : gmap string (list sector_impact) :=
  fold_left (fun acc law => fold_left record_impact (sector_impacts law) acc)
            laws_analyzed ∅.

(** The local [net_impact_coefficient] of lines 83-87. *)
Definition net_impact_coefficient
    (by_sector : gmap string (list sector_impact)) (sid : string) : Q :=
  match by_sector !! sid with
  | Some impacts =>
      let coefficients := map impact_coefficient impacts in
      match coefficients with
      | [] => 0
      | _ => Py.sum coefficients / Py.len coefficients
      end
  | None => 0
  end.

(** The body of the loop over [sectors] (lines 79-107). *)
Definition model_one_sector
    (by_sector : gmap string (list sector_impact)) (sectors : list sector)
    (s : sector) : sector_flow :=
  let coefficient := net_impact_coefficient by_sector (sector_id s) in
  {| flow_sector_id := sector_id s;
     flow_sector_name := sector_name s;
     current_market_cap := total_market_cap s;
     value_creation_sources := _get_value_creation_sources s;
     value_chain := default "" (value_chain_description s);
     impact_direction := _determine_impact_direction coefficient;
     flow_monetary_impact :=
       _calculate_monetary_impact (total_market_cap s) coefficient sectors;
     interest_rate_sensitivity := _calculate_rate_sensitivity (sector_id s) |}.

(** [_model_sector_flows] *)
Definition _model_sector_flows
    (sectors : list sector) (laws_analyzed : list law_analysis) : list sector_flow :=
  let by_sector := collect_sector_impacts laws_analyzed in
  map (model_one_sector by_sector sectors) sectors.

End MonetaryFlowModeler.

(** ** Agent 05: [SectorImpactQuantifier] *)

Module SectorImpactQuantifier.

Local Open Scope R_scope.

(** [config['execution_parameters']], with the fields agent 05 reads. *)
Record execution_parameters := {
  max_projection_years : Z;
  confidence_threshold : R
}.

Record projection := {
  year : Z;
  projected_market_cap : R;
  year_over_year_change_percent : R;
  cumulative_change_percent : R;
  volatility_adjustment_percent : R;
  confidence_level : R
}.

(** The logistic expression [1 / (1 + pow(2.718, -5 * (r - 0.5)))], which
    the source writes out twice (lines 94 and 103); [pow] with a positive
    base is [Rpower]. *)
Definition s_curve (progress_ratio : R) : R :=
  1 / (1 + Rpower 2.718 (-5 * (progress_ratio - 0.5))).

(** The body of the loop of [_generate_yearly_projections] for one [year];
    [volatility_factor] is the value that [random.uniform(-3, 3)] returns
    in this round. *)
Definition project_year
    (params : execution_parameters)
    (baseline_cap total_percent_change : R) (timeline_years year : Z)
    (volatility_factor : R) : projection :=
  let progress_ratio := IZR year / IZR timeline_years in
  let progress_ratio := if Rlt_dec 1 progress_ratio then 1 else progress_ratio in
  let s_curve_factor := s_curve progress_ratio in
  let cumulative_change := total_percent_change * s_curve_factor in
  let projected_market_cap := baseline_cap * (1 + cumulative_change / 100) in
  let yoy_change :=
    if (year =? 1)%Z then cumulative_change
    else
      let prev_cumulative :=
        total_percent_change * s_curve (IZR (year - 1) / IZR timeline_years) in
      cumulative_change - prev_cumulative in
  let adjusted_yoy_change := yoy_change + volatility_factor in
  let adjusted_market_cap := projected_market_cap * (1 + volatility_factor / 100) in
  {| year := year;
     projected_market_cap := adjusted_market_cap;
     year_over_year_change_percent := adjusted_yoy_change;
     cumulative_change_percent := cumulative_change;
     volatility_adjustment_percent := volatility_factor;
     confidence_level :=
       Py.rmax 0.5 (confidence_threshold params - IZR (year - 1) * 0.1) |}.

(** [_generate_yearly_projections]; the random source is the sequence
    [draws] of the values returned by the successive calls of
    [random.uniform(-3, 3)], one call per round of the loop. *)
Definition _generate_yearly_projections
    (params : execution_parameters) (draws : nat -> R)
    (baseline_cap total_percent_change : R) (timeline_years : Z)
    : list projection :=
  map (fun year =>
         project_year params baseline_cap total_percent_change timeline_years year
                      (draws (Z.to_nat (year - 1))))
      (Py.range 1 (Z.min (timeline_years + 1) (max_projection_years params + 1))).

(** [_calculate_absorption_timeline] *)
Definition _calculate_absorption_timeline (impact_direction : string) : Z :=
  let timelines : gmap string Z :=
    list_to_map [ ("growth", 3%Z); ("decline", 2%Z); ("stagnation", 1%Z) ] in
  default 3%Z (timelines !! impact_direction).

(** A sector flow of [04_monetary_flow_model.json], with the fields
    [_quantify_single_sector] and [_get_risk_factors] read. *)
Record sector_flow := {
  flow_sector_id : string;
  flow_sector_name : string;
  current_market_cap : R;
  net_change : R;
  impact_direction : string
}.

(** A sector forecast, without its ["key_assumptions"], whose first line
    prints the market cap as a decimal number. *)
Record sector_forecast := {
  sector_id : string;
  sector_name : string;
  baseline_market_cap : R;
  absorption_timeline_years : Z;
  total_value_change : R;
  total_percent_change : R;
  yearly_projections : list projection;
  risk_factors : list string
}.

(** [_get_risk_factors] *)
Definition _get_risk_factors (flow : sector_flow) : list string :=
  [ "Regulatory implementation delays"; "Economic recession impact";
    "Competitive market changes" ]
  ++ (if String.eqb (impact_direction flow) "growth" then ["Market saturation risk"]
      else if String.eqb (impact_direction flow) "decline"
           then ["Accelerated decline risk"]
           else []).

(** [_quantify_single_sector] *)
Definition _quantify_single_sector
    (params : execution_parameters) (draws : nat -> R) (flow : sector_flow)
    : sector_forecast :=
  let baseline_market_cap := current_market_cap flow in
  let net_change := net_change flow in
  let absorption_timeline := _calculate_absorption_timeline (impact_direction flow) in
  let total_value_change := net_change in
  let total_percent_change :=
    if Rlt_dec 0 baseline_market_cap
    then total_value_change / baseline_market_cap * 100
    else 0 in
  {| sector_id := flow_sector_id flow;
     sector_name := flow_sector_name flow;
     baseline_market_cap := baseline_market_cap;
     absorption_timeline_years := absorption_timeline;
     total_value_change := total_value_change;
     total_percent_change := total_percent_change;
     yearly_projections :=
       _generate_yearly_projections params draws baseline_market_cap
                                    total_percent_change absorption_timeline;
     risk_factors := _get_risk_factors flow |}.

End SectorImpactQuantifier.

(** ** Agent 06: [PortfolioReallocator] *)

Module PortfolioReallocator.

(** A company of [01_portfolio_data.json]. *)
Record company := {
  ticker : string;
  company_name : string;
  market_cap : Q;
  weight_percent : Q
}.

(** A value of the dictionary built by [_create_sector_company_map]. *)
Record sector_info := {
  sector_id : string;
  sector_name : string;
  sector_market_cap : Q;
  sector_weight_percent : Q
}.

(** A yearly projection of a sector forecast, with the fields agent 06
    reads. *)
Record yearly_projection := {
  year : Z;
  cumulative_change_percent : Q
}.

(** A forecast of [05_sector_quantified_impacts.json], with the fields
    agent 06 reads. *)
Record sector_forecast := {
  total_percent_change : Q;
  yearly_projections : list yearly_projection
}.

Record company_projection := {
  projection_year : Z;
  projection_market_cap : Q;
  projection_weight_percent : Q
}.

Record reallocated_company := {
  out_ticker : string;
  out_company_name : string;
  out_sector_id : string;
  out_sector_name : string;
  original_market_cap : Q;
  original_weight_percent : Q;
  out_sector_weight_percent : Q;
  applied_sector_impact_percent : Q;
  projected_market_cap : Q;
  projected_weight_percent : Q;
  absolute_value_change : Q;
  company_yearly_projections : list company_projection
}.

(** [_calculate_weight_factor] *)
Definition _calculate_weight_factor (sector_weight_percent : Q) : Q :=
  if Qle_bool sector_weight_percent 5 then
    0.6 + (sector_weight_percent / 5) * 0.2
  else if Qle_bool sector_weight_percent 15 then
    0.8 + ((sector_weight_percent - 5) / 10) * 0.4
  else
    Py.min 1.5 (1.2 + ((sector_weight_percent - 15) / 20) * 0.3).

(** [_reallocate_single_company] *)
Definition _reallocate_single_company
    (c : company)
    (sector_company_map : gmap string sector_info)
    (sector_impact_map : gmap string sector_forecast) : reallocated_company :=
  let info :=
    match sector_company_map !! ticker c with
    | Some info => info
    | None => {| sector_id := "other"; sector_name := "Other";
                 sector_market_cap := 1000000000;
                 sector_weight_percent := 1.0 |}
    end in
  let sid := sector_id info in
  let applied_impact_percent :=
    match sector_impact_map !! sid with
    | Some forecast =>
        total_percent_change forecast
        * _calculate_weight_factor (sector_weight_percent info)
    | None => 0
    end in
  let projections :=
    match sector_impact_map !! sid with
    | Some forecast => yearly_projections forecast
    | None => []
    end in
  let original_market_cap := market_cap c in
  let projected_market_cap := original_market_cap * (1 + applied_impact_percent / 100) in
  let original_weight := weight_percent c in
  let projected_weight := original_weight * (1 + applied_impact_percent / 100) in
  let company_yearly_projections :=
    match sector_impact_map !! sid with
    | Some _ =>
        let weight_factor := _calculate_weight_factor (sector_weight_percent info) in
        map (fun projection =>
               let weighted_cumulative_change :=
                 cumulative_change_percent projection * weight_factor in
               {| projection_year := year projection;
                  projection_market_cap :=
                    original_market_cap * (1 + weighted_cumulative_change / 100);
                  projection_weight_percent :=
                    original_weight * (1 + weighted_cumulative_change / 100) |})
            projections
    | None => []
    end in
  {| out_ticker := ticker c;
     out_company_name := company_name c;
     out_sector_id := sector_id info;
     out_sector_name := sector_name info;
     original_market_cap := original_market_cap;
     original_weight_percent := original_weight;
     out_sector_weight_percent := sector_weight_percent info;
     applied_sector_impact_percent := applied_impact_percent;
     projected_market_cap := projected_market_cap;
     projected_weight_percent := projected_weight;
     absolute_value_change := projected_market_cap - original_market_cap;
     company_yearly_projections := company_yearly_projections |}.

(** A company and a sector of [02_sector_taxonomy.json], with the fields
    agent 06 reads. *)
Record taxonomy_company := {
  taxonomy_ticker : string;
  taxonomy_sector_weight_percent : Q
}.

Record taxonomy_sector := {
  taxonomy_sector_id : string;
  taxonomy_sector_name : string;
  taxonomy_total_market_cap : Q;
  taxonomy_companies : list taxonomy_company
}.

(** [_create_sector_company_map]: a later entry for a ticker replaces an
    earlier one. *)
Definition _create_sector_company_map (sectors : list taxonomy_sector)
    : gmap string sector_info :=
  fold_left
    (fun sector_map sector =>
       fold_left
         (fun sector_map company =>
            <[taxonomy_ticker company :=
                {| sector_id := taxonomy_sector_id sector;
                   sector_name := taxonomy_sector_name sector;
                   sector_market_cap := taxonomy_total_market_cap sector;
                   sector_weight_percent := taxonomy_sector_weight_percent company |}]>
              sector_map)
         (taxonomy_companies sector) sector_map)
    sectors ∅.

(** A forecast of [05_sector_quantified_impacts.json] with its key and its
    timeline, [None] when the forecast has no ["absorption_timeline_years"]. *)
Record forecast_entry := {
  forecast_sector_id : string;
  forecast_timeline_years : option Z;
  forecast_body : sector_forecast
}.

Record sector_summary_entry := {
  summary_sector_id : string;
  summary_sector_name : string;
  summary_companies_count : Z;
  original_portfolio_weight : Q;
  projected_portfolio_weight : Q;
  contribution_to_portfolio_change : Q
}.

Record reallocation := {
  original_portfolio_value : Q;
  projected_portfolio_value : Q;
  total_impact_percent : Q;
  projection_timeline_years : Z;
  reallocated_companies : list reallocated_company;
  sector_summary : list sector_summary_entry
}.

(** The update of [sector_summary] for one company (lines 41-54): the entry
    of its sector is created with zeros when it is missing, then the count
    and the two weights are added to it.  The entries stay in the order of
    their creation. *)
Fixpoint update_summary (c : company) (r : reallocated_company)
    (summary : list sector_summary_entry) : list sector_summary_entry :=
  match summary with
  | [] =>
      [ {| summary_sector_id := out_sector_id r;
           summary_sector_name := out_sector_name r;
           summary_companies_count := 0 + 1;
           original_portfolio_weight := 0 + weight_percent c;
           projected_portfolio_weight := 0 + projected_weight_percent r;
           contribution_to_portfolio_change := 0 |} ]
  | entry :: rest =>
      if String.eqb (summary_sector_id entry) (out_sector_id r) then
        {| summary_sector_id := summary_sector_id entry;
           summary_sector_name := summary_sector_name entry;
           summary_companies_count := summary_companies_count entry + 1;
           original_portfolio_weight := original_portfolio_weight entry + weight_percent c;
           projected_portfolio_weight :=
             projected_portfolio_weight entry + projected_weight_percent r;
           contribution_to_portfolio_change := contribution_to_portfolio_change entry |}
        :: rest
      else entry :: update_summary c r rest
  end.

(** [max(...)] over a sequence of integers; [None] stands for the
    [ValueError] that Python raises on an empty sequence. *)
Definition max_of (xs : list Z) : option Z :=
  match xs with
  | [] => None
  | x :: rest => Some (fold_left (fun best y => if (best <? y)%Z then y else best) rest x)
  end.

(** The computation of [reallocate_portfolio] between the three reads and
    the writes; [None] stands for the exception that aborts it. *)
Definition reallocate_portfolio
    (portfolio_companies : list company) (sectors : list taxonomy_sector)
    (sector_forecasts : list forecast_entry) : option reallocation :=
  let sector_company_map := _create_sector_company_map sectors in
  let sector_impact_map : gmap string sector_forecast :=
    fold_left (fun impact_map entry =>
                 <[forecast_sector_id entry := forecast_body entry]> impact_map)
              sector_forecasts ∅ in
  let original_portfolio_value :=
    Py.sum (map (fun c => market_cap c * weight_percent c / 100) portfolio_companies) in
  let reallocated :=
    map (fun c => _reallocate_single_company c sector_company_map sector_impact_map)
        portfolio_companies in
  let summary :=
    fold_left (fun summary c =>
                 update_summary
                   c (_reallocate_single_company c sector_company_map sector_impact_map)
                   summary)
              portfolio_companies [] in
  let projected_portfolio_value :=
    Py.sum (map (fun r => projected_market_cap r * projected_weight_percent r / 100)
                reallocated) in
  let total_impact_percent :=
    if Py.Qltb 0 original_portfolio_value
    then (projected_portfolio_value - original_portfolio_value)
         / original_portfolio_value * 100
    else 0 in
  let summary :=
    map (fun entry =>
           {| summary_sector_id := summary_sector_id entry;
              summary_sector_name := summary_sector_name entry;
              summary_companies_count := summary_companies_count entry;
              original_portfolio_weight := original_portfolio_weight entry;
              projected_portfolio_weight := projected_portfolio_weight entry;
              contribution_to_portfolio_change :=
                projected_portfolio_weight entry - original_portfolio_weight entry |})
        summary in
  match max_of (map (fun entry => default 3%Z (forecast_timeline_years entry))
                    sector_forecasts) with
  | None => None
  | Some timeline =>
      Some {| original_portfolio_value := original_portfolio_value;
              projected_portfolio_value := projected_portfolio_value;
              total_impact_percent := total_impact_percent;
              projection_timeline_years := timeline;
              reallocated_companies := reallocated;
              sector_summary := summary |}
  end.

End PortfolioReallocator.

(** ** The arithmetic of agents 05 and 06 in binary64

    The modules above evaluate the formulas of the agents exactly.  Python
    evaluates them in IEEE 754 binary64; this module embeds the two functions
    whose claims depend on the difference, with the primitive binary64
    numbers.  A decimal constant of the source denotes, as in Python, the
    nearest binary64 number. *)

Module Binary64.

Import PrimFloat.
#[local] Set Warnings "-inexact-float".

(** [float(z)] for an integer below 2^53 in size. *)
Definition of_int (z : Z) : float :=
  if (z <? 0)%Z then PrimFloat.opp (PrimFloat.of_uint63 (Uint63.of_Z (- z)))
  else PrimFloat.of_uint63 (Uint63.of_Z z).

(** [max(a, b)], [min(a, b)] and [sum(xs)] on floats. *)
Definition max (a b : float) : float := if PrimFloat.ltb a b then b else a.

Definition min (a b : float) : float := if PrimFloat.ltb b a then b else a.

Definition sum (xs : list float) : float := fold_left PrimFloat.add xs 0%float.

(** [_calculate_weight_factor] of agent 06. *)
Definition _calculate_weight_factor (sector_weight_percent : float) : float :=
  if PrimFloat.leb sector_weight_percent 5 then
    (0.6 + (sector_weight_percent / 5) * 0.2)%float
  else if PrimFloat.leb sector_weight_percent 15 then
    (0.8 + ((sector_weight_percent - 5) / 10) * 0.4)%float
  else
    min 1.5 (1.2 + ((sector_weight_percent - 15) / 20) * 0.3)%float.

Record projection := {
  year : Z;
  projected_market_cap : float;
  year_over_year_change_percent : float;
  cumulative_change_percent : float;
  volatility_adjustment_percent : float;
  confidence_level : float
}.


Section Projections.

(** [pow], and the two configuration values the function reads. *)
Variable pow : float -> float -> float.
Variable max_projection_years : Z.
Variable confidence_threshold : float.

(** The body of the loop of [_generate_yearly_projections] of agent 05 for
    one [year]; [volatility_factor] is the value of [random.uniform(-3, 3)]
    in this round. *)
Definition project_year
    (baseline_cap total_percent_change : float) (timeline_years year : Z)
    (volatility_factor : float) : projection :=
  let progress_ratio := (of_int year / of_int timeline_years)%float in
  let progress_ratio := if PrimFloat.ltb 1 progress_ratio then 1%float else progress_ratio in
  let s_curve_factor := (1 / (1 + pow 2.718 (-5 * (progress_ratio - 0.5))))%float in
  let cumulative_change := (total_percent_change * s_curve_factor)%float in
  let projected_market_cap := (baseline_cap * (1 + cumulative_change / 100))%float in
  let yoy_change :=
    if (year =? 1)%Z then cumulative_change
    else
      let prev_cumulative :=
        (total_percent_change
         * (1 / (1 + pow 2.718 (-5 * (of_int (year - 1) / of_int timeline_years - 0.5)))))%float in
      (cumulative_change - prev_cumulative)%float in
  let adjusted_yoy_change := (yoy_change + volatility_factor)%float in
  let adjusted_market_cap := (projected_market_cap * (1 + volatility_factor / 100))%float in
  {| year := year;
     projected_market_cap := adjusted_market_cap;
     year_over_year_change_percent := adjusted_yoy_change;
     cumulative_change_percent := cumulative_change;
     volatility_adjustment_percent := volatility_factor;
     confidence_level :=
       max 0.5 (confidence_threshold - of_int (year - 1) * 0.1)%float |}.

(** [_generate_yearly_projections]; [draws k] is the value of the [k]-th
    call of [random.uniform(-3, 3)]. *)
Definition _generate_yearly_projections
    (draws : nat -> float) (baseline_cap total_percent_change : float)
    (timeline_years : Z) : list projection :=
  map (fun year =>
         project_year baseline_cap total_percent_change timeline_years year
                      (draws (Z.to_nat (year - 1))))
      (Py.range 1 (Z.min (timeline_years + 1) (max_projection_years + 1))).

End Projections.

End Binary64.

(** * Properties *)

Section PyFacts.

Lemma Qltb_true (a b : Q) : Py.Qltb a b = true <-> a < b.
Proof.
  unfold Py.Qltb. rewrite negb_true_iff.
  split; intros H.
  - apply Qnot_le_lt. intros Hle. apply Qle_bool_iff in Hle. congruence.
  - destruct (Qle_bool b a) eqn:E; [|reflexivity].
    apply Qle_bool_iff in E. lra.
Qed.

Lemma Qltb_false (a b : Q) : Py.Qltb a b = false <-> b <= a.
Proof.
  unfold Py.Qltb. rewrite negb_false_iff. apply Qle_bool_iff.
Qed.

Lemma Qle_bool_false (a b : Q) : Qle_bool a b = false <-> b < a.
Proof.
  split; intros H.
  - apply Qnot_le_lt. intros Hle. apply Qle_bool_iff in Hle. congruence.
  - destruct (Qle_bool a b) eqn:E; [|reflexivity].
    apply Qle_bool_iff in E. lra.
Qed.

Lemma lookup_map {A B} (f : A -> B) (l : list A) (i : nat) :
  map f l !! i = f <$> (l !! i).
Proof.
  revert i. induction l as [|a l IH]; intros [|i]; simpl; auto.
Qed.

End PyFacts.

(** Case analysis on every rational comparison of the goal, innermost
    first, leaving the outcome as an order fact in the context. *)
Ltac qcases :=
  repeat match goal with
  | |- context [Qle_bool ?a ?b] =>
      let E := fresh "E" in
      destruct (Qle_bool a b) eqn:E;
      [apply Qle_bool_iff in E | apply Qle_bool_false in E]
  | |- context [Py.Qltb ?a ?b] =>
      lazymatch a with context [Py.Qltb _ _] => fail | _ => idtac end;
      lazymatch b with context [Py.Qltb _ _] => fail | _ => idtac end;
      let E := fresh "E" in
      destruct (Py.Qltb a b) eqn:E;
      [apply Qltb_true in E | apply Qltb_false in E]
  end.

Section SectorClassification.
Import SectorClassifier.

Example aapl_is_technology : _assign_sector_by_ticker "AAPL" ticker_sectors = "technology".
Proof. reflexivity. Qed.

Example unknown_biox : _assign_sector_by_ticker "bioX" ticker_sectors = "healthcare".
Proof. reflexivity. Qed.

Lemma in_list_In (x : string) (xs : list string) :
  Py.in_list x xs = true <-> In x xs.
Proof.
  unfold Py.in_list. rewrite existsb_exists. split.
  - intros (y & Hy & Heq). apply String.eqb_eq in Heq. subst. exact Hy.
  - intros Hx. exists x. split; [exact Hx | apply String.eqb_refl].
Qed.



(** Apart from the four shadowed pairs, every ticker of every list is
    classified into the sector of that list. *)
Lemma unshadowed_listings_exact (sector ticker : string) :
  In (sector, ticker) (listings ticker_sectors) ->
  ~ In (sector, ticker) shadowed_listings ->
  _assign_sector_by_ticker ticker ticker_sectors = sector.
Proof.
  intros Hin Hnot.
  assert (Hall : forallb
            (fun p => Py.in_list (snd p) (map snd (List.filter
                          (fun q => String.eqb (fst q) (fst p)) shadowed_listings))
                      || String.eqb (_assign_sector_by_ticker (snd p) ticker_sectors)
                                    (fst p))
            (listings ticker_sectors) = true) by (vm_compute; reflexivity).
  rewrite forallb_forall in Hall. specialize (Hall _ Hin). simpl fst in Hall.
  simpl snd in Hall. apply orb_true_iff in Hall as [Hsh|Heq].
  - exfalso. apply Hnot. apply in_list_In in Hsh.
    apply in_map_iff in Hsh as ((sec & t) & Ht & Hf). simpl in Ht. subst t.
    apply filter_In in Hf as [Hf Hsec]. simpl in Hsec.
    apply String.eqb_eq in Hsec. subst sec. exact Hf.
  - apply String.eqb_eq. exact Heq.
Qed.

(** C6 at the ticker STZ: it is in the consumer_staples list, yet it is
    classified as financial, whose list also has it and comes first; the
    same happens to RVTY, CHRW and EXPD, each listed under two sectors. *)
Theorem stz_listed_as_staples_classified_financial :
  In ("consumer_staples", "STZ") (listings ticker_sectors) /\
  _assign_sector_by_ticker "STZ" ticker_sectors = "financial" /\
  In ("telecommunications", "RVTY") (listings ticker_sectors) /\
  _assign_sector_by_ticker "RVTY" ticker_sectors = "healthcare" /\
  In ("industrials", "CHRW") (listings ticker_sectors) /\
  _assign_sector_by_ticker "CHRW" ticker_sectors = "consumer_discretionary" /\
  In ("industrials", "EXPD") (listings ticker_sectors) /\
  _assign_sector_by_ticker "EXPD" ticker_sectors = "consumer_discretionary".
Proof.
  repeat split; try reflexivity;
    apply list_elem_of_In; compute_done.
Qed.

End SectorClassification.

Section LegislativeImpact.
Import LegislativeImpactAnalyzer.

Example carbon_tax_energy :
  let law0 := {| law_id := "l"; law_title := "l.txt"; implementation_date := "2024-12-31";
                 content := ""; key_themes := ["environmental_regulation"; "taxation"];
                 key_measures := ["new_compliance"] |} in
  _calculate_impact_coefficient law0 {| sector_id := "energy"; sector_name := "Energy" |} == 8.
Proof. vm_compute. reflexivity. Qed.

Example extract_carbon_tax :
  _extract_themes_and_measures "A Carbon TAX with a compliance obligation"
  = (["environmental_regulation"; "taxation"], ["new_compliance"]).
Proof. vm_compute. reflexivity. Qed.

Lemma clamp_range (x : Q) :
  1 <= Py.max 1 (Py.min x 10) /\ Py.max 1 (Py.min x 10) <= 10.
Proof. unfold Py.max, Py.min. qcases; lra. Qed.

(** C2: whatever the themes and measures of the law and whatever the
    sector, the coefficient lies between 1 and 10. *)
Theorem impact_coefficient_in_range (l : law) (s : sector) :
  1 <= _calculate_impact_coefficient l s /\ _calculate_impact_coefficient l s <= 10.
Proof. unfold _calculate_impact_coefficient. apply clamp_range. Qed.

Lemma modifier_nonpositive (measure : string) (modifier : Q) :
  measure_modifiers !! measure = Some modifier ->
  measure <> "subsidy" -> modifier <= 0.
Proof.
  intros Hlook Hne. apply elem_of_list_to_map_2 in Hlook.
  unfold measure_modifiers_table in Hlook.
  repeat (apply elem_of_cons in Hlook as [Hlook|Hlook];
          [inversion Hlook; subst; first [lra | congruence]|]).
  apply elem_of_nil in Hlook. contradiction.
Qed.

Lemma measures_without_subsidy_lower (measures : list string) :
  forall base_score : Q,
  ~ In "subsidy" measures ->
  fold_left apply_measure measures base_score <= base_score.
Proof.
  induction measures as [|m ms IH]; intros b Hno; simpl; [lra|].
  assert (Hstep : apply_measure b m <= b).
  { unfold apply_measure. destruct (measure_modifiers !! m) as [d|] eqn:E; [|lra].
    assert (d <= 0) by (apply (modifier_nonpositive m); [exact E|];
                        intros ->; apply Hno; left; reflexivity).
    lra. }
  assert (Hrest : fold_left apply_measure ms (apply_measure b m) <= apply_measure b m).
  { apply IH. intros Hin. apply Hno. right. exact Hin. }
  lra.
Qed.

(** C5 as stated fails: with the theme environmental_regulation (matrix
    entry 2 for consumer_staples) and the measure subsidy, the coefficient
    is 3, above both 1 and half of the base score 2. *)
Lemma consumer_staples_subsidy_exceeds_half :
  let l := {| law_id := "l"; law_title := "l.txt"; implementation_date := "2024-12-31";
              content := ""; key_themes := ["environmental_regulation"];
              key_measures := ["subsidy"] |} in
  let s := {| sector_id := "consumer_staples"; sector_name := "Consumer Staples" |} in
  theme_base_score (key_themes l) "consumer_staples" == 2 /\
  _calculate_impact_coefficient l s == 3 /\
  ~ (_calculate_impact_coefficient l s <= 1 \/
     _calculate_impact_coefficient l s
       <= theme_base_score (key_themes l) "consumer_staples" / 2).
Proof.
  intros l s.
  assert (Hb : theme_base_score (key_themes l) "consumer_staples" == 2)
    by (vm_compute; reflexivity).
  assert (Hc : _calculate_impact_coefficient l s == 3) by (vm_compute; reflexivity).
  split; [exact Hb|]. split; [exact Hc|].
  rewrite Hc, Hb. intros [H|H]; vm_compute in H; apply H; reflexivity.
Qed.

Lemma detect_names (table : list (string * list string)) (text name : string) :
  In name (detect table text) -> In name (map fst table).
Proof.
  unfold detect. intros H. apply in_map_iff in H as ((n & kws) & <- & Hin).
  apply filter_In in Hin as [Hin _]. apply in_map_iff. exists (n, kws). auto.
Qed.

Lemma or_list_cases {A} (x y : list A) :
  (x = [] /\ Py.or_list x y = y) \/ (x <> [] /\ Py.or_list x y = x).
Proof. destruct x; [left | right]; split; simpl; congruence. Qed.

(** C9, as the code has it: the detected themes are either a non-empty
    subset of the six theme categories or, when no theme keyword occurs,
    the single fallback label general_regulation; the detected measures are
    either a non-empty subset of the six measure categories or, when no
    measure keyword occurs, the single fallback label
    compliance_requirement. *)
Theorem detected_categories_or_fallback (content : string) :
  let themes := fst (_extract_themes_and_measures content) in
  let measures := snd (_extract_themes_and_measures content) in
  ((themes <> [] /\ incl themes six_themes) \/
   (detect theme_keywords (Py.lower content) = [] /\ themes = ["general_regulation"])) /\
  ((measures <> [] /\ incl measures six_measures) \/
   (detect measure_keywords (Py.lower content) = [] /\
    measures = ["compliance_requirement"])).
Proof.
  unfold _extract_themes_and_measures; simpl. split.
  - destruct (or_list_cases (detect theme_keywords (Py.lower content))
                            ["general_regulation"]) as [[He ->]|[Hne ->]].
    + right. split; [exact He | reflexivity].
    + left. split; [exact Hne|]. intros t Ht. exact (detect_names _ _ _ Ht).
  - destruct (or_list_cases (detect measure_keywords (Py.lower content))
                            ["compliance_requirement"]) as [[He ->]|[Hne ->]].
    + right. split; [exact He | reflexivity].
    + left. split; [exact Hne|]. intros t Ht. exact (detect_names _ _ _ Ht).
Qed.

(** C9 as stated fails on a text without any keyword: the empty text
    yields the labels general_regulation and compliance_requirement, which
    are outside the six theme and the six measure categories. *)
Lemma empty_text_outside_six_categories :
  _extract_themes_and_measures "" = (["general_regulation"], ["compliance_requirement"]) /\
  ~ incl (fst (_extract_themes_and_measures "")) six_themes /\
  ~ incl (snd (_extract_themes_and_measures "")) six_measures.
Proof.
  split; [reflexivity|]. split; intros H.
  - specialize (H "general_regulation" (or_introl eq_refl)).
    simpl in H. repeat (destruct H as [H|H]; [discriminate H|]). exact H.
  - specialize (H "compliance_requirement" (or_introl eq_refl)).
    simpl in H. repeat (destruct H as [H|H]; [discriminate H|]). exact H.
Qed.

End LegislativeImpact.

Section MonetaryFlow.
Import MonetaryFlowModeler.

(** C1: for every coefficient the rate is one of +15%, +8%, +2%, -12%,
    -20%; it is the one picked by the tests [>= 8], [>= 6], [<= 2], [<= 4],
    else, tried in that order; and the net capital change is the market
    capitalisation times that rate. *)
Theorem impact_rate_step_function (coefficient market_cap : Q) (all_sectors : list sector) :
  In (impact_rate coefficient) [0.15; 0.08; 0.02; -0.12; -0.20] /\
  (8 <= coefficient -> impact_rate coefficient = 0.15) /\
  (~ 8 <= coefficient -> 6 <= coefficient -> impact_rate coefficient = 0.08) /\
  (~ 8 <= coefficient -> ~ 6 <= coefficient -> coefficient <= 2 ->
     impact_rate coefficient = -0.20) /\
  (~ 8 <= coefficient -> ~ 6 <= coefficient -> ~ coefficient <= 2 ->
     coefficient <= 4 -> impact_rate coefficient = -0.12) /\
  (~ 8 <= coefficient -> ~ 6 <= coefficient -> ~ coefficient <= 2 ->
     ~ coefficient <= 4 -> impact_rate coefficient = 0.02) /\
  net_change (_calculate_monetary_impact market_cap coefficient all_sectors)
    = market_cap * impact_rate coefficient.
Proof.
  unfold impact_rate.
  repeat split; simpl; qcases; intros; solve [reflexivity | lra | tauto].
Qed.

Lemma record_impact_other (acc : gmap string (list sector_impact))
      (imp : sector_impact) (sid : string) :
  impact_sector_id imp <> sid -> record_impact acc imp !! sid = acc !! sid.
Proof.
  intros Hne. unfold record_impact.
  rewrite lookup_insert_ne by exact Hne.
  destruct (acc !! impact_sector_id imp); [reflexivity|].
  apply lookup_insert_ne. exact Hne.
Qed.

Lemma record_impacts_other (imps : list sector_impact) (sid : string) :
  forall acc : gmap string (list sector_impact),
  Forall (fun imp => impact_sector_id imp <> sid) imps ->
  fold_left record_impact imps acc !! sid = acc !! sid.
Proof.
  induction imps as [|imp imps IH]; intros acc Hall; simpl; [reflexivity|].
  inversion Hall; subst.
  rewrite IH by assumption. apply record_impact_other. assumption.
Qed.

Lemma collect_sector_impacts_absent (laws_analyzed : list law_analysis) (sid : string) :
  (forall law imp, In law laws_analyzed -> In imp (sector_impacts law) ->
                   impact_sector_id imp <> sid) ->
  collect_sector_impacts laws_analyzed !! sid = None.
Proof.
  unfold collect_sector_impacts.
  assert (Hgen : forall (laws : list law_analysis) (acc : gmap string (list sector_impact)),
             (forall law imp, In law laws -> In imp (sector_impacts law) ->
                              impact_sector_id imp <> sid) ->
             fold_left (fun acc law => fold_left record_impact (sector_impacts law) acc)
                       laws acc !! sid = acc !! sid).
  { induction laws as [|law laws IH]; intros acc Hno; simpl; [reflexivity|].
    rewrite IH.
    - apply record_impacts_other. apply Forall_forall.
      intros imp Himp. apply (Hno law imp); [left; reflexivity|].
      apply list_elem_of_In. exact Himp.
    - intros law' imp Hl Hi. apply (Hno law' imp); [right; exact Hl | exact Hi]. }
  intros Hno. rewrite Hgen by exact Hno. apply lookup_empty.
Qed.

(** C10: a sector that no law's [sector_impacts] mentions gets the net
    coefficient 0, is classified as a decline, and loses 20% of its whole
    market capitalisation (the rate for [coefficient <= 2], not the +2% of
    the mid-range coefficients). *)
Theorem sector_without_impacts_declines
    (sectors : list sector) (laws_analyzed : list law_analysis)
    (i : nat) (s : sector) :
  sectors !! i = Some s ->
  (forall law imp, In law laws_analyzed -> In imp (sector_impacts law) ->
                   impact_sector_id imp <> sector_id s) ->
  net_impact_coefficient (collect_sector_impacts laws_analyzed) (sector_id s) = 0 /\
  impact_rate 0 = -0.20 /\ ~ impact_rate 0 == 0.02 /\
  exists flow,
    _model_sector_flows sectors laws_analyzed !! i = Some flow /\
    flow_sector_id flow = sector_id s /\
    impact_direction flow = "decline" /\
    net_change (flow_monetary_impact flow) = total_market_cap s * -0.20.
Proof.
  intros Hs Hno.
  assert (Hcoef : net_impact_coefficient (collect_sector_impacts laws_analyzed)
                                         (sector_id s) = 0).
  { unfold net_impact_coefficient.
    rewrite (collect_sector_impacts_absent _ _ Hno). reflexivity. }
  split; [exact Hcoef|].
  split; [reflexivity|].
  split; [intros H; vm_compute in H; discriminate|].
  exists (model_one_sector (collect_sector_impacts laws_analyzed) sectors s).
  split.
  - unfold _model_sector_flows. rewrite lookup_map, Hs. reflexivity.
  - unfold model_one_sector; simpl. rewrite Hcoef. repeat split.
Qed.

Lemma sector_without_impacts_declines_witness :
  let tech := {| sector_id := "technology"; sector_name := "Technology";
                 total_market_cap := 1000; value_chain_description := None |} in
  let util := {| sector_id := "utilities"; sector_name := "Utilities";
                 total_market_cap := 500; value_chain_description := None |} in
  let laws := [ {| law_id := "privacy_act";
                   sector_impacts := [ {| impact_sector_id := "technology";
                                          impact_coefficient := 9 |} ] |} ] in
  exists flow,
    _model_sector_flows [tech; util] laws !! 1%nat = Some flow /\
    impact_direction flow = "decline" /\
    net_change (flow_monetary_impact flow) = 500 * -0.20.
Proof.
  intros tech util laws.
  destruct (sector_without_impacts_declines [tech; util] laws 1 util)
    as (_ & _ & _ & flow & Hflow & _ & Hdir & Hnet).
  - reflexivity.
  - intros law imp [<-|[]] [<-|[]]. simpl. discriminate.
  - exists flow. repeat split; assumption.
Defined.

End MonetaryFlow.

Section LogisticCurve.
Import SectorImpactQuantifier.
Local Open Scope R_scope.

Lemma sqrt_2_718 : 1.6486 < sqrt 2.718 < 1.6487.
Proof.
  split.
  - rewrite <- (sqrt_square 1.6486) by lra. apply sqrt_lt_1_alt. lra.
  - rewrite <- (sqrt_square 1.6487) by lra. apply sqrt_lt_1_alt. lra.
Qed.

(** [pow(2.718, -2.5)] is the inverse of [2.718^2 * sqrt 2.718]. *)
Lemma pow_2_718_at_one :
  Rpower 2.718 (-5 * (1 - 0.5)) = / (2.718 ^ 2 * sqrt 2.718).
Proof.
  replace (-5 * (1 - 0.5)) with (- (INR 2 + / 2)) by (simpl; lra).
  rewrite Rpower_Ropp, Rpower_plus, Rpower_pow, Rpower_sqrt by lra.
  reflexivity.
Qed.

Lemma s_curve_at_one : 0.9241 < s_curve 1 < 0.9242.
Proof.
  unfold s_curve. rewrite pow_2_718_at_one.
  pose proof sqrt_2_718 as [Hlo Hhi].
  set (r := sqrt 2.718) in *.
  assert (HP : 12.179 < 2.718 ^ 2 * r < 12.18) by (simpl; lra).
  set (P := 2.718 ^ 2 * r) in *.
  assert (Hq : 0 < / P) by (apply Rinv_0_lt_compat; lra).
  assert (HqP : / P * P = 1) by (apply Rinv_l; lra).
  set (q := / P) in *.
  assert (Hqb : 0.0821 < q < 0.08211) by nra.
  assert (Hs : 0 < / (1 + q)) by (apply Rinv_0_lt_compat; lra).
  assert (Hsq : / (1 + q) * (1 + q) = 1) by (apply Rinv_l; lra).
  unfold Rdiv. rewrite Rmult_1_l.
  set (v := / (1 + q)) in *. nra.
Qed.

End LogisticCurve.

Section SectorImpactQuantification.
Import SectorImpactQuantifier.
Local Open Scope R_scope.

Variable params : execution_parameters.
Variable draws : nat -> R.
Variables baseline_cap total_percent_change : R.
Variable timeline_years : Z.
Hypothesis timeline_positive : (1 <= timeline_years)%Z.
Hypothesis timeline_within_horizon : (timeline_years <= max_projection_years params)%Z.

(** The cumulative change after [j] of the [timeline_years] years, noise
    apart. *)
Let cumulative (j : Z) : R :=
  total_percent_change * s_curve (IZR j / IZR timeline_years).

Let projections : list projection :=
  _generate_yearly_projections params draws baseline_cap total_percent_change
                               timeline_years.

Let round (k : nat) : projection :=
  project_year params baseline_cap total_percent_change timeline_years
               (1 + Z.of_nat k) (draws k).

Lemma projections_rounds :
  projections = map round (seq 0 (Z.to_nat timeline_years)).
Proof.
  unfold projections, _generate_yearly_projections, Py.range.
  rewrite Z.min_l by lia.
  replace (timeline_years + 1 - 1)%Z with timeline_years by lia.
  rewrite map_map. apply map_ext. intros k. unfold round.
  replace (Z.to_nat (1 + Z.of_nat k - 1)) with k by lia. reflexivity.
Qed.

Lemma round_cumulative (k : nat) :
  (k < Z.to_nat timeline_years)%nat ->
  cumulative_change_percent (round k) = cumulative (1 + Z.of_nat k).
Proof.
  intros Hk. unfold round, project_year, cumulative; simpl.
  destruct (Rlt_dec 1 (IZR (1 + Z.of_nat k) / IZR timeline_years)) as [Hgt|_];
    [|reflexivity].
  exfalso.
  assert (Hpos : 0 < IZR timeline_years) by (apply IZR_lt; lia).
  assert (Hle : IZR (1 + Z.of_nat k) <= IZR timeline_years) by (apply IZR_le; lia).
  apply (Rmult_lt_compat_r (IZR timeline_years)) in Hgt; [|exact Hpos].
  unfold Rdiv in Hgt. rewrite Rmult_assoc, Rinv_l in Hgt by lra. lra.
Qed.




Lemma final_projection :
  exists m, Z.to_nat timeline_years = S m /\ last projections = Some (round m).
Proof.
  destruct (Z.to_nat timeline_years) as [|m] eqn:E; [lia|].
  exists m. split; [reflexivity|].
  rewrite projections_rounds, E, seq_S, map_app. simpl.
  apply last_snoc.
Qed.

Lemma final_cumulative_value :
  exists final,
    last projections = Some final /\
    year final = timeline_years /\
    cumulative_change_percent final = total_percent_change * s_curve 1.
Proof.
  destruct final_projection as (m & Hm & Hlast).
  exists (round m). split; [exact Hlast|]. split.
  - unfold round, project_year; simpl. lia.
  - rewrite round_cumulative by lia. unfold cumulative.
    replace (1 + Z.of_nat m)%Z with timeline_years by lia.
    unfold Rdiv. rewrite Rinv_r; [reflexivity|].
    apply not_0_IZR. lia.
Qed.


(** C4, as the code has it: the cumulative change of the last year is the
    total percent change times s(1) = 1 / (1 + 2.718^(-2.5)), which lies
    between 0.9241 and 0.9242. *)
Theorem final_cumulative_change :
  exists final,
    last (_generate_yearly_projections params draws baseline_cap
            total_percent_change timeline_years) = Some final /\
    year final = timeline_years /\
    cumulative_change_percent final = total_percent_change * s_curve 1 /\
    0.9241 < s_curve 1 < 0.9242.
Proof.
  destruct final_cumulative_value as (final & Hlast & Hyear & Hcum).
  exists final. split; [exact Hlast|]. split; [exact Hyear|].
  split; [exact Hcum | exact s_curve_at_one].
Qed.

End SectorImpactQuantification.

Section SectorImpactQuantificationExamples.
Import SectorImpactQuantifier.
Local Open Scope R_scope.


Lemma final_cumulative_change_witness :
  let params := {| max_projection_years := 3; confidence_threshold := 0.8 |} in
  exists final,
    last (_generate_yearly_projections params (fun _ => 1.5) 1000 8 2) = Some final /\
    year final = 2%Z /\
    cumulative_change_percent final = 8 * s_curve 1.
Proof.
  intros params.
  destruct (final_cumulative_change params (fun _ => 1.5) 1000 8 2)
    as (final & Hlast & Hyear & Hcum & _).
  - lia.
  - simpl. lia.
  - exists final. split; [exact Hlast|]. split; [exact Hyear | exact Hcum].
Defined.

(** C4 as stated fails: for a one-year timeline and a total change of
    100%, the last cumulative change is below 92.42, more than 6 points
    away from 99.33. *)
Lemma final_cumulative_far_from_0_9933 :
  let params := {| max_projection_years := 3; confidence_threshold := 0.8 |} in
  exists final,
    last (_generate_yearly_projections params (fun _ => 0) 1000 100 1) = Some final /\
    year final = 1%Z /\
    cumulative_change_percent final < 92.42 /\
    Rabs (cumulative_change_percent final - 100 * 0.9933) > 6.
Proof.
  intros params.
  destruct (final_cumulative_value params (fun _ => 0) 1000 100 1)
    as (final & Hlast & Hyear & Hcum); [lia | simpl; lia |].
  exists final. split; [exact Hlast|]. split; [exact Hyear|].
  pose proof s_curve_at_one as [Hlo Hhi]. rewrite Hcum.
  split; [lra|]. unfold Rabs. destruct (Rcase_abs _); lra.
Qed.

End SectorImpactQuantificationExamples.

Section PortfolioReallocation.
Import PortfolioReallocator.

(** The three branches of [_calculate_weight_factor] as affine pieces: the
    first two lie on one line of slope 0.04, the third has slope 0.015
    until it meets the cap 1.5 at 35. *)
Lemma weight_factor_pieces (w : Q) :
  (w <= 15 /\ _calculate_weight_factor w == 0.6 + 0.04 * w) \/
  (15 < w /\ w <= 35 /\ _calculate_weight_factor w == 1.2 + 0.015 * (w - 15)) \/
  (35 < w /\ _calculate_weight_factor w == 1.5).
Proof.
  assert (H1 : 0.6 + (w / 5) * 0.2 == 0.6 + 0.04 * w) by field.
  assert (H2 : 0.8 + ((w - 5) / 10) * 0.4 == 0.6 + 0.04 * w) by field.
  assert (H3 : 1.2 + ((w - 15) / 20) * 0.3 == 1.2 + 0.015 * (w - 15)) by field.
  unfold _calculate_weight_factor, Py.min.
  destruct (Qle_bool w 5) eqn:E5;
    [apply Qle_bool_iff in E5 | apply Qle_bool_false in E5].
  { left. split; [lra | exact H1]. }
  destruct (Qle_bool w 15) eqn:E15;
    [apply Qle_bool_iff in E15 | apply Qle_bool_false in E15].
  { left. split; [lra | exact H2]. }
  right.
  destruct (Py.Qltb (1.2 + ((w - 15) / 20) * 0.3) 1.5) eqn:E;
    [apply Qltb_true in E | apply Qltb_false in E]; rewrite H3 in E.
  - left. split; [lra|]. split; [lra | exact H3].
  - destruct (Qlt_le_dec 35 w) as [Hgt|Hle].
    + right. split; [lra | reflexivity].
    + left. split; [lra|]. split; [lra | lra].
Qed.

Example weight_factor_at_3 : _calculate_weight_factor 3 == 0.72.
Proof. reflexivity. Qed.

Example weight_factor_at_20 : _calculate_weight_factor 20 == 1.275.
Proof. reflexivity. Qed.


(** C3, as the code has it: at a sector weight of 20% the weight factor is
    1.2 + (5/20) * 0.3 = 1.275, below the cap 1.5, and the applied impact
    is 1.275 times the sector's total percent change. *)
Theorem weight_factor_at_twenty_percent
    (c : company) (sector_company_map : gmap string sector_info)
    (sector_impact_map : gmap string sector_forecast)
    (info : sector_info) (forecast : sector_forecast) :
  sector_company_map !! ticker c = Some info ->
  sector_weight_percent info == 20 ->
  sector_impact_map !! sector_id info = Some forecast ->
  _calculate_weight_factor (sector_weight_percent info) == 1.275 /\
  _calculate_weight_factor (sector_weight_percent info) < 1.5 /\
  applied_sector_impact_percent
    (_reallocate_single_company c sector_company_map sector_impact_map)
    == 1.275 * total_percent_change forecast.
Proof.
  intros Hinfo Hw Hforecast.
  assert (Hf : _calculate_weight_factor (sector_weight_percent info) == 1.275).
  { destruct (weight_factor_pieces (sector_weight_percent info))
      as [[Hx Ex]|[(Hx & Hx' & Ex)|[Hx Ex]]]; rewrite Ex; lra. }
  split; [exact Hf|]. split; [rewrite Hf; lra|].
  unfold _reallocate_single_company; simpl.
  rewrite Hinfo, Hforecast, Hf. ring.
Qed.

Lemma weight_factor_at_twenty_percent_witness :
  let info := {| sector_id := "technology"; sector_name := "Technology";
                 sector_market_cap := 5000; sector_weight_percent := 20 |} in
  let c := {| ticker := "AAA"; company_name := "Triple A";
              market_cap := 1000; weight_percent := 2 |} in
  let forecast := {| total_percent_change := 8; yearly_projections := [] |} in
  applied_sector_impact_percent
    (_reallocate_single_company c {[ "AAA" := info ]} {[ "technology" := forecast ]})
    == 1.275 * 8.
Proof.
  intros info c forecast.
  apply (weight_factor_at_twenty_percent
           c {[ "AAA" := info ]} {[ "technology" := forecast ]} info forecast).
  - reflexivity.
  - reflexivity.
  - reflexivity.
Defined.

(** C3 as stated fails: at 20% the factor is not 1.5, and a company holding
    20% of a sector that changes by 8% gets 10.2%, not 12%. *)
Lemma twenty_percent_is_not_capped :
  let info := {| sector_id := "technology"; sector_name := "Technology";
                 sector_market_cap := 5000; sector_weight_percent := 20 |} in
  let c := {| ticker := "AAA"; company_name := "Triple A";
              market_cap := 1000; weight_percent := 2 |} in
  let forecast := {| total_percent_change := 8; yearly_projections := [] |} in
  ~ _calculate_weight_factor 20 == 1.5 /\
  ~ applied_sector_impact_percent
      (_reallocate_single_company c {[ "AAA" := info ]} {[ "technology" := forecast ]})
    == 1.5 * 8.
Proof.
  intros info c forecast. split; intros H; vm_compute in H; discriminate H.
Qed.



End PortfolioReallocation.

(** * Further properties of agent 04 *)

Section MonetaryFlowBalance.
Import MonetaryFlowModeler.

(** The inflow and the outflow of a monetary impact are never negative, at
    most one of them is not zero, and their difference is the net change. *)
Theorem monetary_impact_balance
    (market_cap coefficient : Q) (all_sectors : list sector) :
  let m := _calculate_monetary_impact market_cap coefficient all_sectors in
  0 <= capital_inflow m /\ 0 <= capital_outflow m /\
  capital_inflow m - capital_outflow m == net_change m /\
  (capital_inflow m == 0 \/ capital_outflow m == 0).
Proof.
  simpl. generalize (market_cap * impact_rate coefficient). intros change.
  unfold Py.max. qcases; repeat split; lra.
Qed.

(** A positive net change is attributed to the two source pseudo-sectors
    and to no destination; any other net change, zero included, to the two
    destination pseudo-sectors and to no source.  No attributed amount is
    negative. *)
Theorem monetary_impact_legs
    (market_cap coefficient : Q) (all_sectors : list sector) :
  let m := _calculate_monetary_impact market_cap coefficient all_sectors in
  (0 < net_change m ->
     destination_sectors m = [] /\
     map leg_sector_id (source_sectors m) = ["external_investment"; "sector_rotation"] /\
     List.Forall (fun leg => 0 <= amount leg) (source_sectors m)) /\
  (net_change m <= 0 ->
     source_sectors m = [] /\
     map leg_sector_id (destination_sectors m)
       = ["defensive_assets"; "alternative_sectors"] /\
     List.Forall (fun leg => 0 <= amount leg) (destination_sectors m)).
Proof.
  cbv zeta. unfold _calculate_monetary_impact.
  cbn [net_change source_sectors destination_sectors].
  generalize (market_cap * impact_rate coefficient). intros change.
  split; intros Hsign.
  - pose proof Hsign as Hpos. apply Qltb_true in Hsign. rewrite Hsign.
    split; [reflexivity|]. split; [reflexivity|].
    repeat constructor; cbn [amount]; lra.
  - pose proof (Qabs_nonneg change) as Habs.
    apply Qltb_false in Hsign. rewrite Hsign.
    split; [reflexivity|]. split; [reflexivity|].
    repeat constructor; cbn [amount]; lra.
Qed.

Lemma monetary_impact_legs_witness :
  let m := _calculate_monetary_impact 1000 3 [] in
  source_sectors m = [] /\
  map leg_sector_id (destination_sectors m) = ["defensive_assets"; "alternative_sectors"] /\
  List.Forall (fun leg => 0 <= amount leg) (destination_sectors m).
Proof.
  intros m. apply (monetary_impact_legs 1000 3 []). vm_compute. discriminate.
Defined.

(** For a sector with a positive market capitalisation the net change is
    negative exactly when the direction is "decline"; a "growth" sector gains
    at least 8% and a "stagnation" sector still gains 2%. *)
Theorem direction_agrees_with_net_change
    (market_cap coefficient : Q) (all_sectors : list sector) :
  0 < market_cap ->
  let change := net_change (_calculate_monetary_impact market_cap coefficient all_sectors) in
  (_determine_impact_direction coefficient = "decline" <-> change < 0) /\
  (_determine_impact_direction coefficient = "growth" <-> 0.08 * market_cap <= change) /\
  (_determine_impact_direction coefficient = "stagnation" <->
     change == 0.02 * market_cap).
Proof.
  intros Hcap. simpl. unfold _determine_impact_direction, impact_rate.
  qcases; repeat split; intros H; try reflexivity; try discriminate H;
    try lra; exfalso; lra.
Qed.

Lemma direction_agrees_with_net_change_witness :
  _determine_impact_direction 5 = "stagnation" <->
  net_change (_calculate_monetary_impact 1000 5 []) == 0.02 * 1000.
Proof.
  apply (direction_agrees_with_net_change 1000 5 []). reflexivity.
Defined.

End MonetaryFlowBalance.

Section MonetaryFlowGrouping.
Import MonetaryFlowModeler.

Lemma record_impact_lookup (acc : gmap string (list sector_impact))
      (imp : sector_impact) (sid : string) :
  default [] (record_impact acc imp !! sid)
  = default [] (acc !! sid)
    ++ (if String.eqb (impact_sector_id imp) sid then [imp] else []).
Proof.
  destruct (String.eqb (impact_sector_id imp) sid) eqn:E.
  - apply String.eqb_eq in E. subst sid. unfold record_impact.
    rewrite lookup_insert_eq. simpl.
    destruct (acc !! impact_sector_id imp) eqn:Hacc; [rewrite Hacc; reflexivity|].
    rewrite lookup_insert_eq. reflexivity.
  - apply String.eqb_neq in E. rewrite record_impact_other by exact E.
    rewrite app_nil_r. reflexivity.
Qed.

Lemma record_impacts_lookup (imps : list sector_impact) (sid : string) :
  forall acc : gmap string (list sector_impact),
  default [] (fold_left record_impact imps acc !! sid)
  = default [] (acc !! sid)
    ++ List.filter (fun imp => String.eqb (impact_sector_id imp) sid) imps.
Proof.
  induction imps as [|imp imps IH]; intros acc; simpl.
  - rewrite app_nil_r. reflexivity.
  - rewrite IH, record_impact_lookup.
    destruct (String.eqb (impact_sector_id imp) sid); simpl.
    + rewrite <- app_assoc. reflexivity.
    + rewrite app_nil_r. reflexivity.
Qed.

Lemma collect_sector_impacts_lookup (laws_analyzed : list law_analysis) (sid : string) :
  default [] (collect_sector_impacts laws_analyzed !! sid)
  = List.filter (fun imp => String.eqb (impact_sector_id imp) sid)
                (flat_map sector_impacts laws_analyzed).
Proof.
  unfold collect_sector_impacts.
  assert (Hgen : forall (laws : list law_analysis) (acc : gmap string (list sector_impact)),
             default [] (fold_left (fun acc law =>
                                      fold_left record_impact (sector_impacts law) acc)
                                   laws acc !! sid)
             = default [] (acc !! sid)
               ++ List.filter (fun imp => String.eqb (impact_sector_id imp) sid)
                              (flat_map sector_impacts laws)).
  { induction laws as [|law laws IH]; intros acc; simpl.
    - rewrite app_nil_r. reflexivity.
    - rewrite IH, record_impacts_lookup, List.filter_app, <- app_assoc. reflexivity. }
  rewrite Hgen, lookup_empty. reflexivity.
Qed.

(** The net coefficient of a sector is the arithmetic mean of the
    coefficients of all the impacts on that sector, over all the laws and in
    their order, and 0 when there is none. *)
Theorem net_coefficient_is_mean (laws_analyzed : list law_analysis) (sid : string) :
  let coefficients :=
    map impact_coefficient
        (List.filter (fun imp => String.eqb (impact_sector_id imp) sid)
                     (flat_map sector_impacts laws_analyzed)) in
  net_impact_coefficient (collect_sector_impacts laws_analyzed) sid
  = match coefficients with
    | [] => 0
    | _ => Py.sum coefficients / Py.len coefficients
    end.
Proof.
  cbv zeta. rewrite <- collect_sector_impacts_lookup.
  unfold net_impact_coefficient.
  destruct (collect_sector_impacts laws_analyzed !! sid); reflexivity.
Qed.

Lemma sum_from_bounds (lo hi : Q) (xs : list Q) :
  Forall (fun x => lo <= x /\ x <= hi) xs ->
  forall start : Q,
  start + lo * Py.len xs <= fold_left Qplus xs start /\
  fold_left Qplus xs start <= start + hi * Py.len xs.
Proof.
  induction 1 as [|x xs [Hlo Hhi] Hall IH]; intros start.
  - unfold Py.len; simpl. split; ring_simplify; apply Qle_refl.
  - assert (Hlen : Py.len (x :: xs) == Py.len xs + 1).
    { unfold Py.len. cbn [List.length]. rewrite Nat2Z.inj_succ, <- Z.add_1_r.
      rewrite inject_Z_plus. reflexivity. }
    cbn [fold_left]. destruct (IH (start + x)) as [IHlo IHhi].
    rewrite Hlen. split; lra.
Qed.

(** When every emitted coefficient lies between two bounds, so does the net
    coefficient of every sector that has at least one impact. *)
Theorem net_coefficient_between_bounds
    (laws_analyzed : list law_analysis) (sid : string) (lo hi : Q) :
  (forall law imp, In law laws_analyzed -> In imp (sector_impacts law) ->
                   lo <= impact_coefficient imp /\ impact_coefficient imp <= hi) ->
  (exists law imp, In law laws_analyzed /\ In imp (sector_impacts law) /\
                   impact_sector_id imp = sid) ->
  lo <= net_impact_coefficient (collect_sector_impacts laws_analyzed) sid /\
  net_impact_coefficient (collect_sector_impacts laws_analyzed) sid <= hi.
Proof.
  intros Hbounds (law & imp & Hlaw & Himp & Hsid).
  pose proof (collect_sector_impacts_lookup laws_analyzed sid) as Hlook.
  set (hits := List.filter (fun imp => String.eqb (impact_sector_id imp) sid)
                           (flat_map sector_impacts laws_analyzed)) in *.
  assert (Hhit : In imp hits).
  { apply filter_In. split.
    - apply in_flat_map. exists law. split; assumption.
    - apply String.eqb_eq. exact Hsid. }
  assert (Hall : Forall (fun x => lo <= x /\ x <= hi) (map impact_coefficient hits)).
  { apply List.Forall_forall. intros x Hx. apply in_map_iff in Hx as (i & <- & Hi).
    apply filter_In in Hi as [Hi _]. apply in_flat_map in Hi as (l & Hl & Hi).
    apply (Hbounds l i Hl Hi). }
  unfold net_impact_coefficient.
  destruct (collect_sector_impacts laws_analyzed !! sid) as [impacts|];
    simpl in Hlook; [subst impacts | rewrite <- Hlook in Hhit; contradiction].
  destruct (map impact_coefficient hits) as [|c cs] eqn:E.
  { destruct hits; [contradiction | discriminate E]. }
  rewrite <- E in *. clear E.
  destruct (sum_from_bounds lo hi _ Hall 0) as [Hlo Hhi].
  assert (Hpos : 0 < Py.len (map impact_coefficient hits)).
  { unfold Py.len. destruct hits; [contradiction|]. cbn [map List.length].
    rewrite Nat2Z.inj_succ. change 0 with (inject_Z 0). rewrite <- Zlt_Qlt. lia. }
  unfold Py.sum. split.
  - apply Qle_shift_div_l; [exact Hpos | lra].
  - apply Qle_shift_div_r; [exact Hpos | lra].
Qed.

Lemma net_coefficient_between_bounds_witness :
  let laws :=
    [ {| law_id := "a"; sector_impacts :=
           [ {| impact_sector_id := "energy"; impact_coefficient := 9 |};
             {| impact_sector_id := "technology"; impact_coefficient := 3 |} ] |};
      {| law_id := "b"; sector_impacts :=
           [ {| impact_sector_id := "energy"; impact_coefficient := 6 |} ] |} ] in
  1 <= net_impact_coefficient (collect_sector_impacts laws) "energy" /\
  net_impact_coefficient (collect_sector_impacts laws) "energy" <= 10.
Proof.
  intros laws. apply (net_coefficient_between_bounds laws "energy" 1 10).
  - intros law imp Hlaw Himp. simpl in Hlaw.
    destruct Hlaw as [<-|[<-|[]]]; simpl in Himp;
      repeat (destruct Himp as [<-|Himp]; [simpl; split; discriminate|]);
      contradiction.
  - exists {| law_id := "b"; sector_impacts :=
                [ {| impact_sector_id := "energy"; impact_coefficient := 6 |} ] |}.
    exists {| impact_sector_id := "energy"; impact_coefficient := 6 |}.
    simpl. auto.
Defined.

End MonetaryFlowGrouping.

(** * Further properties of agent 06 *)

Section CompanyReallocation.
Import PortfolioReallocator.

(** For a sector weight that is not negative the weight factor lies between
    0.6 and 1.5, and it is 1.5 exactly from a weight of 35% on. *)
Theorem weight_factor_range (w : Q) :
  0 <= w ->
  0.6 <= _calculate_weight_factor w /\ _calculate_weight_factor w <= 1.5 /\
  (_calculate_weight_factor w == 1.5 <-> 35 <= w).
Proof.
  intros Hw.
  destruct (weight_factor_pieces w) as [[Hx Ex]|[(Hx & Hx' & Ex)|[Hx Ex]]];
    rewrite Ex; repeat split; intros; lra.
Qed.

Lemma weight_factor_range_witness :
  0.6 <= _calculate_weight_factor 40 /\ _calculate_weight_factor 40 <= 1.5 /\
  (_calculate_weight_factor 40 == 1.5 <-> 35 <= 40).
Proof. apply (weight_factor_range 40). discriminate. Defined.

(** A company whose sector has no forecast is left as it is: the applied
    impact is 0, the projected market cap and weight are the original ones,
    and it gets no yearly projection. *)
Theorem company_without_forecast_unchanged
    (c : company) (sector_company_map : gmap string sector_info)
    (sector_impact_map : gmap string sector_forecast) :
  let r := _reallocate_single_company c sector_company_map sector_impact_map in
  sector_impact_map !! out_sector_id r = None ->
  applied_sector_impact_percent r = 0 /\
  projected_market_cap r == market_cap c /\
  projected_weight_percent r == weight_percent c /\
  absolute_value_change r == 0 /\
  company_yearly_projections r = [].
Proof.
  unfold _reallocate_single_company; cbv zeta.
  cbn [out_sector_id applied_sector_impact_percent projected_market_cap
       projected_weight_percent absolute_value_change company_yearly_projections].
  intros Hnone. rewrite Hnone.
  split; [reflexivity|]. split; [field|]. split; [field|]. split; [field | reflexivity].
Qed.

Lemma company_without_forecast_unchanged_witness :
  let c := {| ticker := "ZZZZ"; company_name := "Unlisted";
              market_cap := 1000; weight_percent := 2 |} in
  let r := _reallocate_single_company c ∅ ∅ in
  applied_sector_impact_percent r = 0 /\
  projected_market_cap r == 1000 /\
  projected_weight_percent r == 2 /\
  absolute_value_change r == 0 /\
  company_yearly_projections r = [].
Proof.
  intros c r. apply (company_without_forecast_unchanged c ∅ ∅). reflexivity.
Defined.

(** A company whose ticker is not in the sector map is put in the sector
    "other" with a sector weight of 1%; when the forecasts have a sector
    "other" its change is applied with the factor 0.64. *)
Theorem unknown_ticker_goes_to_other
    (c : company) (sector_company_map : gmap string sector_info)
    (sector_impact_map : gmap string sector_forecast) :
  sector_company_map !! ticker c = None ->
  let r := _reallocate_single_company c sector_company_map sector_impact_map in
  out_sector_id r = "other" /\ out_sector_name r = "Other" /\
  out_sector_weight_percent r == 1 /\
  forall forecast, sector_impact_map !! "other" = Some forecast ->
    applied_sector_impact_percent r == 0.64 * total_percent_change forecast.
Proof.
  intros Hnone. unfold _reallocate_single_company; cbv zeta.
  cbn [out_sector_id out_sector_name out_sector_weight_percent
       applied_sector_impact_percent].
  rewrite Hnone. cbn [sector_id sector_name sector_weight_percent].
  split; [reflexivity|]. split; [reflexivity|]. split; [reflexivity|].
  intros forecast Hf. rewrite Hf.
  assert (Hk : _calculate_weight_factor 1.0 == 0.64) by reflexivity.
  rewrite Hk. ring.
Qed.

Lemma unknown_ticker_goes_to_other_witness :
  let c := {| ticker := "ZZZZ"; company_name := "Unlisted";
              market_cap := 1000; weight_percent := 2 |} in
  let forecast := {| total_percent_change := -12; yearly_projections := [] |} in
  let r := _reallocate_single_company c ∅ {[ "other" := forecast ]} in
  out_sector_id r = "other" /\
  applied_sector_impact_percent r == 0.64 * -12.
Proof.
  intros c forecast r.
  destruct (unknown_ticker_goes_to_other c ∅ {[ "other" := forecast ]})
    as (Hid & _ & _ & Happlied); [reflexivity|].
  split; [exact Hid|]. apply (Happlied forecast). reflexivity.
Defined.

(** A company whose sector has a forecast: the sector's total change is
    applied with the weight factor of the company, which for a sector weight
    that is not negative keeps the sign of the change and scales it by 0.6 to
    1.5; market cap and portfolio weight are scaled by the same expression,
    and there is one company projection per yearly projection of the sector,
    for the same years. *)
Theorem company_with_forecast_scaled
    (c : company) (sector_company_map : gmap string sector_info)
    (sector_impact_map : gmap string sector_forecast) (forecast : sector_forecast) :
  let r := _reallocate_single_company c sector_company_map sector_impact_map in
  sector_impact_map !! out_sector_id r = Some forecast ->
  0 <= out_sector_weight_percent r ->
  let k := _calculate_weight_factor (out_sector_weight_percent r) in
  0.6 <= k /\ k <= 1.5 /\
  applied_sector_impact_percent r == total_percent_change forecast * k /\
  projected_market_cap r
    == market_cap c * (1 + applied_sector_impact_percent r / 100) /\
  projected_weight_percent r
    == weight_percent c * (1 + applied_sector_impact_percent r / 100) /\
  map projection_year (company_yearly_projections r)
    = map year (yearly_projections forecast) /\
  Forall2 (fun p q => projection_market_cap p
                      == market_cap c * (1 + cumulative_change_percent q * k / 100))
          (company_yearly_projections r) (yearly_projections forecast).
Proof.
  unfold _reallocate_single_company; cbv zeta.
  cbn [out_sector_id out_sector_weight_percent applied_sector_impact_percent
       projected_market_cap projected_weight_percent company_yearly_projections].
  intros Hf Hw. rewrite Hf.
  assert (Hk : 0.6 <= _calculate_weight_factor
                        (sector_weight_percent
                           (match sector_company_map !! ticker c with
                            | Some info => info
                            | None => {| sector_id := "other"; sector_name := "Other";
                                         sector_market_cap := 1000000000;
                                         sector_weight_percent := 1.0 |}
                            end)) <= 1.5).
  { revert Hw. generalize (sector_weight_percent
                           (match sector_company_map !! ticker c with
                            | Some info => info
                            | None => {| sector_id := "other"; sector_name := "Other";
                                         sector_market_cap := 1000000000;
                                         sector_weight_percent := 1.0 |}
                            end)). intros w Hw.
    destruct (weight_factor_pieces w) as [[Hx Ex]|[(Hx & Hx' & Ex)|[Hx Ex]]];
      rewrite Ex; lra. }
  destruct Hk as [Hlo Hhi].
  split; [exact Hlo|]. split; [exact Hhi|].
  split; [reflexivity|]. split; [reflexivity|]. split; [reflexivity|].
  split.
  - rewrite map_map. reflexivity.
  - induction (yearly_projections forecast) as [|q qs IH]; simpl; constructor.
    + reflexivity.
    + exact IH.
Qed.

Lemma company_with_forecast_scaled_witness :
  let info := {| sector_id := "energy"; sector_name := "Energy";
                 sector_market_cap := 5000; sector_weight_percent := 10 |} in
  let c := {| ticker := "XOM"; company_name := "Exxon";
              market_cap := 500; weight_percent := 1 |} in
  let forecast := {| total_percent_change := -12;
                     yearly_projections :=
                       [ {| year := 1; cumulative_change_percent := -4 |};
                         {| year := 2; cumulative_change_percent := -11 |} ] |} in
  let r := _reallocate_single_company c {[ "XOM" := info ]} {[ "energy" := forecast ]} in
  applied_sector_impact_percent r == -12 * _calculate_weight_factor 10 /\
  map projection_year (company_yearly_projections r) = [1%Z; 2%Z].
Proof.
  intros info c forecast r.
  destruct (company_with_forecast_scaled
              c {[ "XOM" := info ]} {[ "energy" := forecast ]} forecast)
    as (_ & _ & Happlied & _ & _ & Hyears & _).
  - reflexivity.
  - discriminate.
  - split; [exact Happlied | exact Hyears].
Defined.

End CompanyReallocation.


Section SumFacts.

Lemma fold_sum_shift (xs : list Q) :
  forall start : Q, fold_left Qplus xs start == start + fold_left Qplus xs 0.
Proof.
  induction xs as [|x xs IH]; intros start; cbn [fold_left].
  - ring.
  - rewrite (IH (start + x)), (IH (0 + x)). ring.
Qed.

Lemma sum_cons (x : Q) (xs : list Q) : Py.sum (x :: xs) == x + Py.sum xs.
Proof. unfold Py.sum. cbn [fold_left]. rewrite fold_sum_shift. ring. Qed.

Lemma sum_app (xs ys : list Q) : Py.sum (xs ++ ys) == Py.sum xs + Py.sum ys.
Proof.
  unfold Py.sum. rewrite fold_left_app, fold_sum_shift. reflexivity.
Qed.

End SumFacts.

(** * Further properties of agent 02 *)

Section SectorTaxonomy.
Import SectorClassifier.

Example taxonomy_of_three :
  let data := {| data_companies := Some
       [ {| data_ticker := Some "AAPL"; data_company_name := Some "Apple";
            data_market_cap := Some 300; data_business_description := None |};
         {| data_ticker := Some "JPM"; data_company_name := Some "JPMorgan";
            data_market_cap := Some 50; data_business_description := None |};
         {| data_ticker := Some "MSFT"; data_company_name := Some "Microsoft";
            data_market_cap := Some 100; data_business_description := None |} ] |} in
  map (fun s => (sector_id s, sector_name s, companies_count s,
                 map ticker (companies s)))
      (_create_sector_taxonomy data)
  = [ ("technology", "Technology", 2%nat, ["AAPL"; "MSFT"]);
      ("financial", "Financial", 1%nat, ["JPM"]) ].
Proof. vm_compute. reflexivity. Qed.

Example real_estate_name :
  Py.title (Py.replace_char "_" " " "real_estate") = "Real Estate".
Proof. reflexivity. Qed.

Lemma first_listing_key (t : string) (entries : list (string * list string)) (s : string) :
  first_listing t entries = Some s -> In s (map fst entries).
Proof.
  induction entries as [|[sec ts] rest IH]; simpl; [discriminate|].
  destruct (Py.in_list t ts).
  - intros [= <-]. left. reflexivity.
  - intros H. right. exact (IH H).
Qed.

(** Every ticker, listed or not, is classified into one of the eleven
    sectors: the classification has no other outcome and no failure. *)
Theorem classification_in_eleven_sectors (t : string) :
  In (_assign_sector_by_ticker t ticker_sectors) eleven_sectors.
Proof.
  unfold _assign_sector_by_ticker.
  destruct (first_listing t ticker_sectors) as [s|] eqn:E.
  - apply first_listing_key in E. exact E.
  - unfold _classify_unknown_ticker.
    repeat match goal with
           | |- context [if ?b then _ else _] => destruct b
           end; simpl; tauto.
Qed.

(** The sector a company is filed under. *)
Let sector_of (info : company_info) : string :=
  _assign_sector_by_ticker (ticker info) ticker_sectors.

(** What the first loop keeps true of [sector_companies]: the keys are
    distinct, no list is empty, and a list holds companies of its key only,
    their sector weight still at its initial 0. *)
Let grouped (groups : list (string * list company_info)) : Prop :=
  List.NoDup (map fst groups) /\
  forall k infos, In (k, infos) groups ->
    infos <> [] /\
    forall x, In x infos -> sector_of x = k /\ sector_weight_percent x = 0.

Lemma group_append_keys (key : string) (info : company_info)
      (groups : list (string * list company_info)) (k : string) :
  In k (map fst (group_append key info groups)) <-> k = key \/ In k (map fst groups).
Proof.
  induction groups as [|[k0 infos] rest IH]; simpl.
  - intuition congruence.
  - destruct (String.eqb k0 key) eqn:E; simpl.
    + apply String.eqb_eq in E. subst. intuition congruence.
    + rewrite IH. intuition congruence.
Qed.

Lemma group_append_nodup (key : string) (info : company_info)
      (groups : list (string * list company_info)) :
  List.NoDup (map fst groups) -> List.NoDup (map fst (group_append key info groups)).
Proof.
  induction groups as [|[k0 infos] rest IH]; simpl; intros Hnd.
  - constructor; [intros [] | constructor].
  - inversion Hnd as [|? ? Hnotin Hrest]; subst.
    destruct (String.eqb k0 key) eqn:E; simpl.
    + constructor; assumption.
    + constructor; [|exact (IH Hrest)].
      rewrite group_append_keys. intros [->|Hin]; [|contradiction].
      rewrite String.eqb_refl in E. discriminate.
Qed.

Lemma group_append_entry (key : string) (info : company_info)
      (groups : list (string * list company_info)) (k : string)
      (infos : list company_info) :
  In (k, infos) (group_append key info groups) ->
  In (k, infos) groups \/
  (k = key /\ exists old, infos = old ++ [info] /\ (old = [] \/ In (key, old) groups)).
Proof.
  induction groups as [|[k0 infos0] rest IH]; simpl.
  - intros [[= <- <-]|[]]. right. split; [reflexivity|]. exists []. auto.
  - destruct (String.eqb k0 key) eqn:E; simpl.
    + apply String.eqb_eq in E. subst k0. intros [[= <- <-]|Hin].
      * right. split; [reflexivity|]. exists infos0. auto.
      * left. right. exact Hin.
    + intros [Heq|Hin]; [left; left; exact Heq|].
      destruct (IH Hin) as [Hold|(-> & old & -> & Hcase)].
      * left. right. exact Hold.
      * right. split; [reflexivity|]. exists old. split; [reflexivity|].
        destruct Hcase as [->|Hin']; [left; reflexivity | right; right; exact Hin'].
Qed.

Lemma group_append_grouped (info : company_info)
      (groups : list (string * list company_info)) :
  sector_weight_percent info = 0 ->
  grouped groups -> grouped (group_append (sector_of info) info groups).
Proof.
  intros Hzero [Hnd Hmem]. split; [apply group_append_nodup; exact Hnd|].
  intros k infos Hin.
  destruct (group_append_entry _ _ _ _ _ Hin) as [Hold|(-> & old & -> & Hcase)].
  - exact (Hmem k infos Hold).
  - split; [destruct old; discriminate|].
    intros x Hx. apply in_app_iff in Hx as [Hx|[<-|[]]].
    + destruct Hcase as [->|Hold]; [contradiction|].
      exact (proj2 (Hmem _ _ Hold) x Hx).
    + split; [reflexivity | exact Hzero].
Qed.

Lemma group_append_members (key : string) (info : company_info)
      (groups : list (string * list company_info)) :
  Permutation (flat_map snd (group_append key info groups))
              (flat_map snd groups ++ [info]).
Proof.
  induction groups as [|[k0 infos0] rest IH]; simpl; [reflexivity|].
  destruct (String.eqb k0 key); simpl.
  - rewrite <- !app_assoc. apply Permutation_app_head. apply Permutation_app_comm.
  - rewrite IH, app_assoc. reflexivity.
Qed.

Lemma classify_companies_grouped (companies : list company_data) :
  grouped (classify_companies companies) /\
  Permutation (flat_map snd (classify_companies companies))
              (map company_info_of companies).
Proof.
  unfold classify_companies.
  set (step := fun (groups : list (string * list company_info)) (company : company_data) =>
                 let info := company_info_of company in
                 group_append (_assign_sector_by_ticker (ticker info) ticker_sectors)
                              info groups).
  assert (Hgen : forall (cs : list company_data) (groups : list (string * list company_info)),
             grouped groups ->
             grouped (fold_left step cs groups) /\
             Permutation (flat_map snd (fold_left step cs groups))
                         (flat_map snd groups ++ map company_info_of cs)).
  { induction cs as [|c cs IH]; intros groups Hg; cbn [fold_left map].
    - rewrite app_nil_r. split; [exact Hg | reflexivity].
    - change (step groups c)
        with (group_append (sector_of (company_info_of c)) (company_info_of c) groups).
      destruct (IH (group_append (sector_of (company_info_of c)) (company_info_of c) groups))
        as [Hinv Hperm].
      { apply group_append_grouped; [reflexivity | exact Hg]. }
      split; [exact Hinv|].
      rewrite Hperm, group_append_members, <- app_assoc. reflexivity. }
  apply (Hgen companies []). split; [constructor | intros k infos []].
Qed.

Lemma build_sector_identities (group : string * list company_info) :
  map (fun c => (ticker c, company_name c, market_cap c)) (companies (build_sector group))
  = map (fun c => (ticker c, company_name c, market_cap c)) (snd group).
Proof.
  unfold build_sector; cbn [companies]. rewrite map_map. apply map_ext.
  intros c. destruct (Py.Qltb 0 _); reflexivity.
Qed.

(** The sectors of the taxonomy have distinct identifiers, none is empty,
    the reported count is the number of its companies, and every company sits
    in the sector that the classification of its ticker gives. *)
Theorem taxonomy_sectors_well_formed (data : portfolio_data) :
  List.NoDup (map sector_id (_create_sector_taxonomy data)) /\
  forall s, In s (_create_sector_taxonomy data) ->
    companies s <> [] /\
    companies_count s = List.length (companies s) /\
    forall c, In c (companies s) ->
      _assign_sector_by_ticker (ticker c) ticker_sectors = sector_id s.
Proof.
  unfold _create_sector_taxonomy.
  destruct (classify_companies_grouped (default [] (data_companies data)))
    as [[Hnd Hmem] _].
  split.
  - rewrite map_map. cbn [build_sector sector_id]. exact Hnd.
  - intros s Hs. apply in_map_iff in Hs as ([k infos] & <- & Hin).
    destruct (Hmem k infos Hin) as [Hne Hkey].
    split; [|split; [reflexivity|]].
    + cbn [build_sector companies snd]. destruct infos; [contradiction | discriminate].
    + intros c Hc. cbn [build_sector companies sector_id fst snd] in *.
      apply in_map_iff in Hc as (x & <- & Hx).
      destruct (Hkey x Hx) as [Hsec _].
      destruct (Py.Qltb 0 _); exact Hsec.
Qed.

(** Every company of the portfolio is in exactly one sector of the taxonomy,
    with its ticker, name and market cap (a missing one replaced by its
    default), and nothing else is: the sectors' companies are a rearrangement
    of the portfolio's, and the counts add up to the portfolio size. *)
Theorem taxonomy_partitions_portfolio (data : portfolio_data) :
  Permutation
    (flat_map (fun s => map (fun c => (ticker c, company_name c, market_cap c))
                            (companies s))
              (_create_sector_taxonomy data))
    (map (fun company => (default "" (data_ticker company),
                          default "" (data_company_name company),
                          default 0 (data_market_cap company)))
         (default [] (data_companies data))) /\
  list_sum (map companies_count (_create_sector_taxonomy data))
  = List.length (default [] (data_companies data)).
Proof.
  unfold _create_sector_taxonomy.
  destruct (classify_companies_grouped (default [] (data_companies data)))
    as [_ Hperm].
  generalize dependent (classify_companies (default [] (data_companies data))).
  intros groups Hperm.
  assert (Hflat : flat_map (fun s => map (fun c => (ticker c, company_name c, market_cap c))
                                         (companies s))
                           (map build_sector groups)
                  = map (fun c => (ticker c, company_name c, market_cap c))
                        (flat_map snd groups)).
  { clear Hperm. induction groups as [|g groups IH]; [reflexivity|].
    cbn [map flat_map]. rewrite map_app, IH, build_sector_identities. reflexivity. }
  split.
  - rewrite Hflat, Hperm, map_map. reflexivity.
  - rewrite <- (length_map company_info_of), <- (Permutation_length Hperm).
    clear. induction groups as [|g groups IH]; [reflexivity|].
    cbn [map flat_map]. rewrite length_app. unfold list_sum in *.
    cbn [fold_right]. rewrite IH.
    cbn [build_sector companies_count]. rewrite length_map. reflexivity.
Qed.

Lemma build_sector_market_caps (group : string * list company_info) :
  map market_cap (companies (build_sector group)) = map market_cap (snd group).
Proof.
  unfold build_sector; cbn [companies]. rewrite map_map. apply map_ext.
  intros c. destruct (Py.Qltb 0 _); reflexivity.
Qed.

(** The total market cap of a sector is the sum of its companies' market
    caps, taken in their order.  When it is positive each company's sector
    weight is its share of that total in percent; when it is not, every
    weight stays at 0. *)
Theorem sector_weights_are_shares (data : portfolio_data) (s : sector) :
  In s (_create_sector_taxonomy data) ->
  total_market_cap s = Py.sum (map market_cap (companies s)) /\
  (0 < total_market_cap s ->
     forall c, In c (companies s) ->
       sector_weight_percent c = market_cap c / total_market_cap s * 100) /\
  (total_market_cap s <= 0 ->
     forall c, In c (companies s) -> sector_weight_percent c = 0).
Proof.
  unfold _create_sector_taxonomy. intros Hs.
  destruct (classify_companies_grouped (default [] (data_companies data)))
    as [[_ Hmem] _].
  apply in_map_iff in Hs as ([k infos] & <- & Hin).
  destruct (Hmem k infos Hin) as [_ Hzero].
  split; [rewrite build_sector_market_caps; reflexivity|].
  unfold build_sector. cbn [total_market_cap companies fst snd].
  set (total := Py.sum (map market_cap infos)).
  split; intros Htotal.
  - apply Qltb_true in Htotal. rewrite Htotal.
    intros c Hc. apply in_map_iff in Hc as (x & <- & Hx). reflexivity.
  - apply Qltb_false in Htotal. rewrite Htotal.
    intros c Hc. apply in_map_iff in Hc as (x & <- & Hx).
    exact (proj2 (Hzero x Hx)).
Qed.

Lemma sector_weights_are_shares_witness :
  let data := {| data_companies := Some
       [ {| data_ticker := Some "AAPL"; data_company_name := Some "Apple";
            data_market_cap := Some 300; data_business_description := None |};
         {| data_ticker := Some "MSFT"; data_company_name := Some "Microsoft";
            data_market_cap := Some 100; data_business_description := None |} ] |} in
  let s := nth 0 (_create_sector_taxonomy data) (build_sector ("", [])) in
  In s (_create_sector_taxonomy data) /\
  total_market_cap s = Py.sum (map market_cap (companies s)) /\
  forall c, In c (companies s) ->
    sector_weight_percent c = market_cap c / total_market_cap s * 100.
Proof.
  intros data s.
  assert (Hs : In s (_create_sector_taxonomy data)) by (vm_compute; left; reflexivity).
  split; [exact Hs|].
  destruct (sector_weights_are_shares data s Hs) as (Htotal & Hpos & _).
  split; [exact Htotal|].
  apply Hpos. vm_compute. reflexivity.
Defined.

End SectorTaxonomy.


(** * Further properties of agent 03 *)

Section LawAnalysis.
Import LegislativeImpactAnalyzer.

Lemma impact_coefficient_bounds (l : law) (s : sector) :
  1 <= _calculate_impact_coefficient l s /\ _calculate_impact_coefficient l s <= 10.
Proof. unfold _calculate_impact_coefficient. apply clamp_range. Qed.

Example analysis_of_carbon_tax :
  let l := {| law_id := "l"; law_title := "l.txt"; implementation_date := "2024-12-31";
              content := ""; key_themes := ["environmental_regulation"; "taxation"];
              key_measures := ["new_compliance"] |} in
  let sectors := [ {| sector_id := "energy"; sector_name := "Energy" |};
                   {| sector_id := "healthcare"; sector_name := "Healthcare" |};
                   {| sector_id := "utilities"; sector_name := "Utilities" |} ] in
  map (fun i => (impact_sector_id i, Qred (impact_coefficient i), impact_type i))
      (sector_impacts (_analyze_single_law 5 l sectors))
  = [ ("energy", 8, "direct"); ("utilities", 7, "direct") ].
Proof. vm_compute. reflexivity. Qed.

(** Every emitted impact belongs to one of the given sectors and carries
    that sector's coefficient, which is at least the configured minimum and
    within 1..10; its type is "direct" from 7 on and "indirect" below; and
    it comes with at least one historical precedent. *)
Theorem emitted_impact_sound
    (min_impact_coefficient : Q) (l : law) (sectors : list sector) (imp : sector_impact) :
  In imp (sector_impacts (_analyze_single_law min_impact_coefficient l sectors)) ->
  (exists s, In s sectors /\
             impact_sector_id imp = sector_id s /\
             impact_sector_name imp = sector_name s /\
             impact_coefficient imp = _calculate_impact_coefficient l s) /\
  min_impact_coefficient <= impact_coefficient imp /\
  1 <= impact_coefficient imp /\ impact_coefficient imp <= 10 /\
  (impact_type imp = "direct" <-> 7 <= impact_coefficient imp) /\
  (impact_type imp = "indirect" <-> impact_coefficient imp < 7) /\
  historical_precedents imp <> [].
Proof.
  cbn [_analyze_single_law sector_impacts]. intros Himp.
  apply in_flat_map in Himp as (s & Hs & Himp). unfold analyze_sector in Himp.
  destruct (Qle_bool min_impact_coefficient (_calculate_impact_coefficient l s)) eqn:Emin;
    [|contradiction].
  destruct Himp as [<-|[]]. cbn.
  apply Qle_bool_iff in Emin.
  destruct (clamp_range (fold_left apply_measure (key_measures l)
              (if String.eqb (sector_id s) "consumer_staples"
               then Py.max 1 (theme_base_score (key_themes l) (sector_id s) * 0.5)
               else theme_base_score (key_themes l) (sector_id s)))) as [Hlo Hhi].
  fold (_calculate_impact_coefficient l s) in Hlo, Hhi.
  split; [exists s; auto|]. split; [exact Emin|]. split; [exact Hlo|].
  split; [exact Hhi|].
  destruct (Qle_bool 7 (_calculate_impact_coefficient l s)) eqn:E7;
    [apply Qle_bool_iff in E7 | apply Qle_bool_false in E7].
  - split; [split; auto|]. split; [split; [discriminate | intros; lra]|].
    unfold _find_historical_precedents, Py.or_list.
    destruct (flat_map _ _); discriminate.
  - split; [split; [discriminate | intros; lra]|]. split; [split; auto|].
    unfold _find_historical_precedents, Py.or_list.
    destruct (flat_map _ _); discriminate.
Qed.

Lemma emitted_impact_sound_witness :
  let l := {| law_id := "l"; law_title := "l.txt"; implementation_date := "2024-12-31";
              content := ""; key_themes := ["environmental_regulation"];
              key_measures := ["penalty"] |} in
  let sectors := [ {| sector_id := "energy"; sector_name := "Energy" |};
                   {| sector_id := "healthcare"; sector_name := "Healthcare" |} ] in
  let imp := nth 0 (sector_impacts (_analyze_single_law 5 l sectors))
                 {| impact_sector_id := ""; impact_sector_name := "";
                    impact_coefficient := 0; impact_type := "";
                    historical_precedents := []; external_sources := [] |} in
  5 <= impact_coefficient imp /\ impact_coefficient imp <= 10 /\
  (impact_type imp = "direct" <-> 7 <= impact_coefficient imp).
Proof.
  intros l sectors imp.
  destruct (emitted_impact_sound 5 l sectors imp)
    as (_ & Hmin & _ & Hmax & Hdirect & _).
  - vm_compute. left. reflexivity.
  - split; [exact Hmin|]. split; [exact Hmax | exact Hdirect].
Defined.

(** The emitted impacts are those of the sectors whose coefficient reaches
    the configured minimum, in the order of the sectors; the other sectors
    leave no entry.  With a minimum of at most 1 every sector is emitted, with
    a minimum above 10 none is. *)
Theorem emitted_sectors_are_filtered
    (min_impact_coefficient : Q) (l : law) (sectors : list sector) :
  map impact_sector_id
      (sector_impacts (_analyze_single_law min_impact_coefficient l sectors))
  = map sector_id
        (List.filter (fun s => Qle_bool min_impact_coefficient
                                        (_calculate_impact_coefficient l s))
                     sectors) /\
  (min_impact_coefficient <= 1 ->
     map impact_sector_id
         (sector_impacts (_analyze_single_law min_impact_coefficient l sectors))
     = map sector_id sectors) /\
  (10 < min_impact_coefficient ->
     sector_impacts (_analyze_single_law min_impact_coefficient l sectors) = []).
Proof.
  cbn [_analyze_single_law sector_impacts].
  split; [|split].
  - induction sectors as [|s sectors IH]; [reflexivity|].
    cbn [flat_map List.filter]. unfold analyze_sector at 1.
    destruct (Qle_bool min_impact_coefficient (_calculate_impact_coefficient l s));
      cbn [app map impact_sector_id]; rewrite IH; reflexivity.
  - intros Hmin. induction sectors as [|s sectors IH]; [reflexivity|].
    cbn [flat_map]. unfold analyze_sector at 1.
    destruct (impact_coefficient_bounds l s) as [Hlo _].
    destruct (Qle_bool min_impact_coefficient (_calculate_impact_coefficient l s)) eqn:E;
      [|apply Qle_bool_false in E; lra].
    cbn [app map impact_sector_id]. rewrite IH. reflexivity.
  - intros Hmin. induction sectors as [|s sectors IH]; [reflexivity|].
    cbn [flat_map]. unfold analyze_sector at 1.
    destruct (impact_coefficient_bounds l s) as [_ Hhi].
    destruct (Qle_bool min_impact_coefficient (_calculate_impact_coefficient l s)) eqn:E;
      [apply Qle_bool_iff in E; lra|].
    exact IH.
Qed.

Lemma emitted_sectors_are_filtered_witness :
  let l := {| law_id := "l"; law_title := "l.txt"; implementation_date := "2024-12-31";
              content := ""; key_themes := ["taxation"]; key_measures := [] |} in
  let sectors := [ {| sector_id := "energy"; sector_name := "Energy" |};
                   {| sector_id := "utilities"; sector_name := "Utilities" |} ] in
  map impact_sector_id (sector_impacts (_analyze_single_law 1 l sectors))
  = ["energy"; "utilities"] /\
  sector_impacts (_analyze_single_law 11 l sectors) = [].
Proof.
  intros l sectors. split.
  - apply (emitted_sectors_are_filtered 1 l sectors). discriminate.
  - apply (emitted_sectors_are_filtered 11 l sectors). reflexivity.
Defined.

(** The wording of the rationale follows the thresholds of agent 04's
    direction: "positive" exactly when the flow direction is "growth",
    "negative" exactly when it is "decline", "neutral" exactly when it is
    "stagnation"; and a "direct" impact (coefficient from 7 on) is always a
    positive one. *)
Theorem rationale_direction_matches_flow_direction (coefficient : Q) :
  (rationale_direction coefficient = "positive" <->
   MonetaryFlowModeler._determine_impact_direction coefficient = "growth") /\
  (rationale_direction coefficient = "negative" <->
   MonetaryFlowModeler._determine_impact_direction coefficient = "decline") /\
  (rationale_direction coefficient = "neutral" <->
   MonetaryFlowModeler._determine_impact_direction coefficient = "stagnation") /\
  (7 <= coefficient -> rationale_direction coefficient = "positive").
Proof.
  unfold rationale_direction, MonetaryFlowModeler._determine_impact_direction.
  qcases; repeat split; intros H; try reflexivity; try discriminate H; exfalso; lra.
Qed.

(** A law whose text has no theme keyword and no measure keyword gets the
    coefficient 1 on every sector, so with a minimum above 1 it emits no
    impact at all. *)
Theorem unmatched_text_scores_one (l : law) (text : string) (s : sector) :
  key_themes l = fst (_extract_themes_and_measures text) ->
  key_measures l = snd (_extract_themes_and_measures text) ->
  detect theme_keywords (Py.lower text) = [] ->
  detect measure_keywords (Py.lower text) = [] ->
  _calculate_impact_coefficient l s = 1 /\
  forall min_impact_coefficient sectors,
    1 < min_impact_coefficient ->
    sector_impacts (_analyze_single_law min_impact_coefficient l sectors) = [].
Proof.
  unfold _extract_themes_and_measures; cbv zeta; cbn [fst snd].
  intros Hthemes Hmeasures Hno_theme Hno_measure.
  rewrite Hno_theme in Hthemes. rewrite Hno_measure in Hmeasures.
  cbn [Py.or_list] in Hthemes, Hmeasures.
  assert (Hone : forall s', _calculate_impact_coefficient l s' = 1).
  { intros s'. unfold _calculate_impact_coefficient, theme_base_score.
    rewrite Hthemes, Hmeasures. cbn [fold_left]. unfold score_theme, apply_measure.
    assert (Ht : theme_impacts !! "general_regulation" = None) by reflexivity.
    assert (Hm : measure_modifiers !! "compliance_requirement" = None) by reflexivity.
    rewrite Ht, Hm. destruct (String.eqb (sector_id s') "consumer_staples"); reflexivity. }
  split; [apply Hone|].
  intros min_impact_coefficient sectors Hmin. cbn [_analyze_single_law sector_impacts].
  induction sectors as [|s' sectors IH]; [reflexivity|].
  cbn [flat_map]. unfold analyze_sector at 1. rewrite Hone.
  destruct (Qle_bool min_impact_coefficient 1) eqn:E;
    [apply Qle_bool_iff in E; lra | exact IH].
Qed.

Lemma unmatched_text_scores_one_witness :
  let l := {| law_id := "l"; law_title := "l.txt"; implementation_date := "2024-12-31";
              content := "Hello world"; key_themes := ["general_regulation"];
              key_measures := ["compliance_requirement"] |} in
  _calculate_impact_coefficient l {| sector_id := "energy"; sector_name := "Energy" |} = 1.
Proof.
  intros l.
  apply (unmatched_text_scores_one l "Hello world"); reflexivity.
Defined.

Lemma staples_entry (theme : string) (by_sector : gmap string Q) (impact : Q) :
  theme_impacts !! theme = Some by_sector ->
  by_sector !! "consumer_staples" = Some impact ->
  impact = 2.
Proof.
  intros Ht Hs. apply elem_of_list_to_map_2 in Ht.
  repeat (apply elem_of_cons in Ht as [Ht|Ht];
          [inversion Ht; subst; vm_compute in Hs; congruence|]).
  apply elem_of_nil in Ht. contradiction.
Qed.

Lemma staples_base_score (themes : list string) :
  1 <= theme_base_score themes "consumer_staples" /\
  theme_base_score themes "consumer_staples" <= 2.
Proof.
  unfold theme_base_score.
  assert (Hgen : forall (ts : list string) (start : Q),
             1 <= start /\ start <= 2 ->
             1 <= fold_left (score_theme "consumer_staples") ts start /\
             fold_left (score_theme "consumer_staples") ts start <= 2).
  { induction ts as [|t ts IH]; intros start Hstart; cbn [fold_left]; [exact Hstart|].
    apply IH. unfold score_theme.
    destruct (theme_impacts !! t) as [by_sector|] eqn:Et; [|exact Hstart].
    destruct (by_sector !! "consumer_staples") as [impact|] eqn:Es; [|exact Hstart].
    rewrite (staples_entry t by_sector impact Et Es).
    unfold Py.max. qcases; lra. }
  apply Hgen. lra.
Qed.

(** Unless a subsidy is among the measures, the consumer_staples
    coefficient is 1 for every law: every matrix entry of that sector is 2,
    which the halving brings down to the floor. *)
Theorem consumer_staples_floor_without_subsidy (l : law) (s : sector) :
  sector_id s = "consumer_staples" ->
  ~ In "subsidy" (key_measures l) ->
  _calculate_impact_coefficient l s == 1.
Proof.
  intros Hs Hno. unfold _calculate_impact_coefficient. rewrite Hs.
  simpl String.eqb. cbv iota.
  destruct (staples_base_score (key_themes l)) as [Hlo Hhi].
  pose proof (measures_without_subsidy_lower (key_measures l)
                (Py.max 1 (theme_base_score (key_themes l) "consumer_staples" * 0.5))
                Hno) as Hfold.
  revert Hfold.
  generalize (fold_left apply_measure (key_measures l)
                (Py.max 1 (theme_base_score (key_themes l) "consumer_staples" * 0.5))).
  revert Hlo Hhi. generalize (theme_base_score (key_themes l) "consumer_staples").
  intros base Hlo Hhi adjusted. unfold Py.max, Py.min. qcases; intros; lra.
Qed.

Lemma consumer_staples_floor_without_subsidy_witness :
  let l := {| law_id := "l"; law_title := "l.txt"; implementation_date := "2024-12-31";
              content := ""; key_themes := ["taxation"; "trade_regulation"];
              key_measures := ["penalty"; "restriction"] |} in
  _calculate_impact_coefficient l
    {| sector_id := "consumer_staples"; sector_name := "Consumer Staples" |} == 1.
Proof.
  intros l. apply (consumer_staples_floor_without_subsidy l).
  - reflexivity.
  - simpl. intros [H|[H|[]]]; discriminate H.
Defined.

Lemma score_theme_ge (sid : string) (base_score : Q) (theme : string) :
  base_score <= score_theme sid base_score theme.
Proof.
  unfold score_theme. destruct (theme_impacts !! theme) as [m|]; [|lra].
  destruct (m !! sid); [|lra]. unfold Py.max. qcases; lra.
Qed.

Lemma fold_score_ge (sid : string) (themes : list string) :
  forall start : Q, start <= fold_left (score_theme sid) themes start.
Proof.
  induction themes as [|t ts IH]; intros start; cbn [fold_left]; [lra|].
  pose proof (score_theme_ge sid start t). pose proof (IH (score_theme sid start t)).
  lra.
Qed.

Lemma fold_score_reaches (sid : string) (themes : list string)
      (theme : string) (by_sector : gmap string Q) (impact : Q) :
  In theme themes ->
  theme_impacts !! theme = Some by_sector -> by_sector !! sid = Some impact ->
  forall start : Q, impact <= fold_left (score_theme sid) themes start.
Proof.
  intros Hin Ht Hs.
  induction themes as [|t ts IH]; intros start; [contradiction|].
  cbn [fold_left]. destruct Hin as [->|Hin]; [|exact (IH Hin _)].
  pose proof (fold_score_ge sid ts (score_theme sid start theme)) as Hge.
  assert (Hstep : impact <= score_theme sid start theme).
  { unfold score_theme. rewrite Ht, Hs. unfold Py.max. qcases; lra. }
  lra.
Qed.

Lemma fold_score_below (sid : string) (themes : list string) (bound : Q) :
  (forall theme by_sector impact,
      In theme themes -> theme_impacts !! theme = Some by_sector ->
      by_sector !! sid = Some impact -> impact <= bound) ->
  forall start : Q, start <= bound ->
  fold_left (score_theme sid) themes start <= bound.
Proof.
  induction themes as [|t ts IH]; intros Hall start Hstart; cbn [fold_left];
    [exact Hstart|].
  apply IH.
  - intros theme m v Hin. apply Hall. right. exact Hin.
  - unfold score_theme. destruct (theme_impacts !! t) as [m|] eqn:Et; [|exact Hstart].
    destruct (m !! sid) as [v|] eqn:Es; [|exact Hstart].
    pose proof (Hall t m v (or_introl eq_refl) Et Es).
    unfold Py.max. qcases; lra.
Qed.

Lemma base_score_monotone (sid : string) (themes themes' : list string) :
  incl themes themes' -> theme_base_score themes sid <= theme_base_score themes' sid.
Proof.
  intros Hincl. unfold theme_base_score. apply fold_score_below.
  - intros theme m v Hin Ht Hs.
    exact (fold_score_reaches sid themes' theme m v (Hincl _ Hin) Ht Hs 1).
  - apply fold_score_ge.
Qed.

(** The modifier a measure contributes: 0 for a measure outside the table. *)
Let modifier_of (measure : string) : Q := default 0 (measure_modifiers !! measure).

Lemma fold_measures_sum (measures : list string) :
  forall start : Q,
  fold_left apply_measure measures start == start + Py.sum (map modifier_of measures).
Proof.
  induction measures as [|m ms IH]; intros start; cbn [fold_left map].
  - unfold Py.sum; simpl. ring.
  - rewrite IH, sum_cons. unfold apply_measure, modifier_of.
    destruct (measure_modifiers !! m); simpl; ring.
Qed.

Lemma sum_permutation (xs ys : list Q) : Permutation xs ys -> Py.sum xs == Py.sum ys.
Proof.
  induction 1 as [|x xs ys _ IH|x y xs|xs ys zs _ IH1 _ IH2].
  - reflexivity.
  - rewrite !sum_cons, IH. reflexivity.
  - rewrite !sum_cons. ring.
  - rewrite IH1. exact IH2.
Qed.

(** Adding themes never lowers a coefficient, and neither the order of the
    themes nor the order of the measures changes it: a law whose themes
    include those of another and whose measures are the same up to their
    order scores at least as high on every sector. *)
Theorem coefficient_monotone_in_themes (l l' : law) (s : sector) :
  incl (key_themes l) (key_themes l') ->
  Permutation (key_measures l) (key_measures l') ->
  _calculate_impact_coefficient l s <= _calculate_impact_coefficient l' s.
Proof.
  intros Hthemes Hmeasures. unfold _calculate_impact_coefficient.
  pose proof (base_score_monotone (sector_id s) _ _ Hthemes) as Hbase.
  pose proof (sum_permutation _ _ (Permutation_map modifier_of Hmeasures)) as Hsum.
  revert Hbase.
  generalize (theme_base_score (key_themes l) (sector_id s)).
  generalize (theme_base_score (key_themes l') (sector_id s)).
  intros base' base Hbase.
  set (halved := fun b : Q =>
         if String.eqb (sector_id s) "consumer_staples" then Py.max 1 (b * 0.5) else b).
  change (Py.max 1 (Py.min (fold_left apply_measure (key_measures l) (halved base)) 10)
          <= Py.max 1 (Py.min (fold_left apply_measure (key_measures l') (halved base')) 10)).
  assert (Hhalved : halved base <= halved base').
  { unfold halved. destruct (String.eqb (sector_id s) "consumer_staples"); [|exact Hbase].
    unfold Py.max. qcases; lra. }
  pose proof (fold_measures_sum (key_measures l) (halved base)) as Hl.
  pose proof (fold_measures_sum (key_measures l') (halved base')) as Hl'.
  revert Hl Hl' Hhalved Hsum.
  generalize (fold_left apply_measure (key_measures l) (halved base)).
  generalize (fold_left apply_measure (key_measures l') (halved base')).
  generalize (Py.sum (map modifier_of (key_measures l))).
  generalize (Py.sum (map modifier_of (key_measures l'))).
  generalize (halved base). generalize (halved base').
  intros hb' hb d' d f' f Hl Hl' Hhalved Hsum.
  unfold Py.max, Py.min. qcases; lra.
Qed.

Lemma coefficient_monotone_in_themes_witness :
  let l := {| law_id := "a"; law_title := "a.txt"; implementation_date := "2024-12-31";
              content := ""; key_themes := ["taxation"];
              key_measures := ["penalty"; "subsidy"] |} in
  let l' := {| law_id := "b"; law_title := "b.txt"; implementation_date := "2024-12-31";
               content := ""; key_themes := ["trade_regulation"; "taxation"];
               key_measures := ["subsidy"; "penalty"] |} in
  let s := {| sector_id := "industrials"; sector_name := "Industrials" |} in
  _calculate_impact_coefficient l s <= _calculate_impact_coefficient l' s.
Proof.
  intros l l' s. apply (coefficient_monotone_in_themes l l' s).
  - intros t [<-|[]]. right. left. reflexivity.
  - apply perm_swap.
Defined.

Lemma append_cons (x : ascii) (a b : string) :
  String.append (String x a) b = String x (String.append a b).
Proof. reflexivity. Qed.

Lemma append_empty (b : string) : String.append "" b = b.
Proof. reflexivity. Qed.

Lemma append_assoc (a b c : string) :
  String.append (String.append a b) c = String.append a (String.append b c).
Proof.
  induction a as [|x a IH]; [reflexivity|].
  rewrite !append_cons, IH. reflexivity.
Qed.

Lemma prefix_append (keyword text : string) :
  String.prefix keyword text = true <-> exists post, text = String.append keyword post.
Proof.
  revert text. induction keyword as [|x keyword IH]; intros text.
  - split; [intros _; exists text; reflexivity|].
    intros _. destruct text; reflexivity.
  - destruct text as [|y text]; cbn [String.prefix].
    + split; [discriminate | intros [post H]; rewrite append_cons in H; discriminate H].
    + destruct (ascii_dec x y) as [->|Hne].
      * rewrite IH. split; intros [post H]; exists post.
        -- rewrite append_cons, H. reflexivity.
        -- rewrite append_cons in H. congruence.
      * split; [discriminate|].
        intros [post H]. rewrite append_cons in H. congruence.
Qed.

Lemma str_in_split (keyword text : string) :
  Py.str_in keyword text = true <->
  exists pre post, text = String.append pre (String.append keyword post).
Proof.
  induction text as [|c text IH].
  - cbn [Py.str_in]. rewrite orb_false_r, prefix_append. split.
    + intros [post H]. exists "", post. exact H.
    + intros (pre & post & H). destruct pre.
      * exists post. exact H.
      * rewrite append_cons in H. discriminate H.
  - cbn [Py.str_in]. rewrite orb_true_iff, prefix_append, IH. split.
    + intros [[post H]|(pre & post & H)].
      * exists "", post. exact H.
      * exists (String c pre), post. rewrite append_cons, H. reflexivity.
    + intros (pre & post & H). destruct pre as [|c' pre].
      * left. exists post. exact H.
      * right. exists pre, post. rewrite append_cons in H. congruence.
Qed.

Lemma str_in_trans (a b c : string) :
  Py.str_in a b = true -> Py.str_in b c = true -> Py.str_in a c = true.
Proof.
  rewrite !str_in_split. intros (p1 & q1 & ->) (p2 & q2 & ->).
  exists (String.append p2 p1), (String.append q1 q2).
  rewrite !append_assoc. reflexivity.
Qed.

Lemma detect_iff (table : list (string * list string)) (text name : string) :
  In name (detect table text) <->
  exists keywords, In (name, keywords) table /\
    exists keyword, In keyword keywords /\ Py.str_in keyword text = true.
Proof.
  unfold detect, Py.any. rewrite in_map_iff. split.
  - intros ((n & kws) & <- & Hin). apply filter_In in Hin as [Hin Hany].
    apply existsb_exists in Hany. exists kws. split; [exact Hin | exact Hany].
  - intros (kws & Hin & Hany). exists (name, kws). split; [reflexivity|].
    apply filter_In. split; [exact Hin|]. apply existsb_exists. exact Hany.
Qed.

(** A text in which the measure tax_increase is detected also has the theme
    taxation: each keyword of the measure contains the theme keyword "tax". *)
Theorem tax_increase_implies_taxation (text : string) :
  In "tax_increase" (snd (_extract_themes_and_measures text)) ->
  In "taxation" (fst (_extract_themes_and_measures text)).
Proof.
  unfold _extract_themes_and_measures; cbv zeta; cbn [fst snd]. intros Hmeasure.
  assert (Hdetected : In "tax_increase" (detect measure_keywords (Py.lower text))).
  { destruct (or_list_cases (detect measure_keywords (Py.lower text))
                            ["compliance_requirement"]) as [[_ Heq]|[_ Heq]];
      rewrite Heq in Hmeasure; [|exact Hmeasure].
    destruct Hmeasure as [H|[]]. discriminate H. }
  assert (Htax : Py.str_in "tax" (Py.lower text) = true).
  { apply detect_iff in Hdetected as (kws & Hentry & kw & Hkw & Hin).
    unfold measure_keywords in Hentry. simpl in Hentry.
    repeat (destruct Hentry as [Hentry|Hentry];
            [inversion Hentry; subst; clear Hentry|]); try contradiction.
    simpl in Hkw.
    repeat (destruct Hkw as [<-|Hkw];
            [eapply str_in_trans; [|exact Hin]; reflexivity|]).
    contradiction. }
  assert (Htheme : In "taxation" (detect theme_keywords (Py.lower text))).
  { apply detect_iff. exists ["tax"; "fiscal"; "revenue"; "levy"; "duty"].
    split; [simpl; tauto|]. exists "tax". split; [left; reflexivity | exact Htax]. }
  destruct (or_list_cases (detect theme_keywords (Py.lower text))
                          ["general_regulation"]) as [[Hempty _]|[_ Heq]].
  - rewrite Hempty in Htheme. contradiction.
  - rewrite Heq. exact Htheme.
Qed.

Lemma tax_increase_implies_taxation_witness :
  In "taxation" (fst (_extract_themes_and_measures "A HIGHER TAX on imports")).
Proof.
  apply (tax_increase_implies_taxation "A HIGHER TAX on imports").
  vm_compute. left. reflexivity.
Defined.

(** The rationale of a law whose measures come from the detection step
    never mentions "direct tax implications" or "compliance cost burden":
    the measure names it tests for, "tax" and "compliance", are not among
    the names the detection produces.  Its divergence factors are at most the
    one about the regulatory exposure. *)
Theorem divergence_factors_of_detected_measures
    (l : law) (text : string) (coefficient : Q) :
  key_measures l = snd (_extract_themes_and_measures text) ->
  divergence_factors l coefficient
  = (if Qle_bool 8 coefficient then ["high regulatory exposure"]
     else if Qle_bool coefficient 3 then ["limited regulatory impact"]
     else []) /\
  ~ In "direct tax implications" (divergence_factors l coefficient) /\
  ~ In "compliance cost burden" (divergence_factors l coefficient).
Proof.
  intros Hmeasures.
  assert (Hnames : forall name, In name (key_measures l) ->
                                In name ("compliance_requirement" :: six_measures)).
  { intros name Hin. rewrite Hmeasures in Hin.
    unfold _extract_themes_and_measures in Hin; cbv zeta in Hin; cbn [snd] in Hin.
    destruct (or_list_cases (detect measure_keywords (Py.lower text))
                            ["compliance_requirement"]) as [[_ Heq]|[_ Heq]];
      rewrite Heq in Hin.
    - destruct Hin as [<-|[]]. left. reflexivity.
    - right. exact (detect_names _ _ _ Hin). }
  assert (Htax : Py.in_list "tax" (key_measures l) = false).
  { destruct (Py.in_list "tax" (key_measures l)) eqn:E; [|reflexivity].
    apply in_list_In in E. apply Hnames in E. simpl in E.
    repeat (destruct E as [E|E]; [discriminate E|]). contradiction. }
  assert (Hcompliance : Py.in_list "compliance" (key_measures l) = false).
  { destruct (Py.in_list "compliance" (key_measures l)) eqn:E; [|reflexivity].
    apply in_list_In in E. apply Hnames in E. simpl in E.
    repeat (destruct E as [E|E]; [discriminate E|]). contradiction. }
  unfold divergence_factors. rewrite Htax, Hcompliance, !app_nil_r.
  split; [reflexivity|].
  destruct (Qle_bool 8 coefficient); [|destruct (Qle_bool coefficient 3)];
    simpl; split; intros H; repeat (destruct H as [H|H]; [discriminate H|]);
    contradiction.
Qed.

Lemma divergence_factors_of_detected_measures_witness :
  let l := {| law_id := "l"; law_title := "l.txt"; implementation_date := "2024-12-31";
              content := "a new tax with compliance rules";
              key_themes := ["taxation"]; key_measures := ["new_compliance"] |} in
  ~ In "direct tax implications" (divergence_factors l 9) /\
  ~ In "compliance cost burden" (divergence_factors l 9).
Proof.
  intros l.
  destruct (divergence_factors_of_detected_measures
              l "a new tax with compliance rules" 9) as (_ & Htax & Hcompliance).
  - reflexivity.
  - split; assumption.
Defined.

(** C5, as the code has it: the consumer_staples coefficient stays within
    half of the unadjusted base score of the law's themes, with a floor of 1,
    exactly when the additive modifiers of the law's measures sum to at most
    0 (a measure outside the modifier table counting 0); a positive sum
    lifts it above that bound. *)
Theorem consumer_staples_bound_iff_modifiers (l : law) (s : sector) :
  sector_id s = "consumer_staples" ->
  (_calculate_impact_coefficient l s <= 1 \/
   _calculate_impact_coefficient l s
     <= theme_base_score (key_themes l) "consumer_staples" / 2) <->
  Py.sum (map (fun measure => default 0 (measure_modifiers !! measure)) (key_measures l))
    <= 0.
Proof.
  intros Hs. unfold _calculate_impact_coefficient. rewrite Hs.
  simpl String.eqb. cbv iota.
  destruct (staples_base_score (key_themes l)) as [Hlo Hhi].
  pose proof (fold_measures_sum (key_measures l)
                (Py.max 1 (theme_base_score (key_themes l) "consumer_staples" * 0.5)))
    as Hfold.
  change (map modifier_of (key_measures l))
    with (map (fun measure => default 0 (measure_modifiers !! measure)) (key_measures l))
    in Hfold.
  revert Hfold.
  generalize (fold_left apply_measure (key_measures l)
                (Py.max 1 (theme_base_score (key_themes l) "consumer_staples" * 0.5))).
  generalize (Py.sum (map (fun measure => default 0 (measure_modifiers !! measure))
                          (key_measures l))).
  revert Hlo Hhi. generalize (theme_base_score (key_themes l) "consumer_staples").
  intros base Hlo Hhi delta adjusted.
  assert (Hhalf : base / 2 == base * 0.5) by field. rewrite Hhalf.
  unfold Py.max, Py.min. qcases; intros Hfold; split; intros H; lra.
Qed.

Lemma consumer_staples_bound_iff_modifiers_witness :
  let l := {| law_id := "l"; law_title := "l.txt"; implementation_date := "2024-12-31";
              content := ""; key_themes := ["environmental_regulation"];
              key_measures := ["subsidy"; "restriction"] |} in
  let s := {| sector_id := "consumer_staples"; sector_name := "Consumer Staples" |} in
  _calculate_impact_coefficient l s <= 1 \/
  _calculate_impact_coefficient l s
    <= theme_base_score (key_themes l) "consumer_staples" / 2.
Proof.
  intros l s. apply (consumer_staples_bound_iff_modifiers l s).
  - reflexivity.
  - vm_compute. discriminate.
Defined.

End LawAnalysis.


(** * Further properties of agent 05 *)

Section YearlyProjections.
Import SectorImpactQuantifier.
Local Open Scope R_scope.

Lemma s_curve_range (r : R) : 0 < s_curve r < 1.
Proof.
  unfold s_curve.
  assert (Hp : 0 < Rpower 2.718 (-5 * (r - 0.5))) by (unfold Rpower; apply exp_pos).
  set (p := Rpower 2.718 (-5 * (r - 0.5))) in *.
  assert (Hinv : 0 < / (1 + p)) by (apply Rinv_0_lt_compat; lra).
  assert (Hmul : / (1 + p) * (1 + p) = 1) by (apply Rinv_l; lra).
  unfold Rdiv. rewrite Rmult_1_l. split; nra.
Qed.

Lemma s_curve_increasing (r1 r2 : R) : r1 < r2 -> s_curve r1 < s_curve r2.
Proof.
  intros Hr. unfold s_curve.
  assert (Hlt : Rpower 2.718 (-5 * (r2 - 0.5)) < Rpower 2.718 (-5 * (r1 - 0.5)))
    by (apply Rpower_lt; lra).
  assert (Hp2 : 0 < Rpower 2.718 (-5 * (r2 - 0.5))) by (unfold Rpower; apply exp_pos).
  set (p1 := Rpower 2.718 (-5 * (r1 - 0.5))) in *.
  set (p2 := Rpower 2.718 (-5 * (r2 - 0.5))) in *.
  unfold Rdiv. rewrite !Rmult_1_l.
  apply Rinv_lt_contravar; [|lra].
  apply Rmult_lt_0_compat; lra.
Qed.

Lemma projections_as_rounds
      (params : execution_parameters) (draws : nat -> R)
      (baseline_cap total_percent_change : R) (timeline_years : Z) :
  _generate_yearly_projections params draws baseline_cap total_percent_change
                               timeline_years
  = map (fun k => project_year params baseline_cap total_percent_change timeline_years
                               (1 + Z.of_nat k) (draws k))
        (seq 0 (Z.to_nat (Z.min timeline_years (max_projection_years params)))).
Proof.
  unfold _generate_yearly_projections, Py.range.
  replace (Z.min (timeline_years + 1) (max_projection_years params + 1) - 1)%Z
    with (Z.min timeline_years (max_projection_years params)) by lia.
  rewrite map_map. apply map_ext. intros k.
  replace (Z.to_nat (1 + Z.of_nat k - 1)) with k by lia. reflexivity.
Qed.

Lemma capped_progress (timeline_years y : Z) :
  (1 <= y <= timeline_years)%Z ->
  (if Rlt_dec 1 (IZR y / IZR timeline_years) then 1 else IZR y / IZR timeline_years)
  = IZR y / IZR timeline_years.
Proof.
  intros [Hy Ht].
  destruct (Rlt_dec 1 (IZR y / IZR timeline_years)) as [Hgt|_]; [|reflexivity].
  exfalso.
  assert (Hpos : 0 < IZR timeline_years) by (apply IZR_lt; lia).
  assert (Hle : IZR y <= IZR timeline_years) by (apply IZR_le; lia).
  apply (Rmult_lt_compat_r (IZR timeline_years)) in Hgt; [|exact Hpos].
  unfold Rdiv in Hgt. rewrite Rmult_assoc, Rinv_l in Hgt by lra. lra.
Qed.

Lemma in_projections
      (params : execution_parameters) (draws : nat -> R)
      (baseline_cap total_percent_change : R) (timeline_years : Z) (p : projection) :
  In p (_generate_yearly_projections params draws baseline_cap total_percent_change
                                     timeline_years) ->
  exists k,
    (1 + Z.of_nat k <= Z.min timeline_years (max_projection_years params))%Z /\
    p = project_year params baseline_cap total_percent_change timeline_years
                     (1 + Z.of_nat k) (draws k).
Proof.
  rewrite projections_as_rounds. intros Hin.
  apply in_map_iff in Hin as (k & <- & Hk). apply in_seq in Hk.
  exists k. split; [lia | reflexivity].
Qed.

Lemma progress_increasing (timeline_years y1 y2 : Z) :
  (1 <= timeline_years)%Z -> (y1 < y2)%Z ->
  IZR y1 / IZR timeline_years < IZR y2 / IZR timeline_years.
Proof.
  intros Ht Hy. unfold Rdiv. apply Rmult_lt_compat_r.
  - apply Rinv_0_lt_compat. apply IZR_lt. lia.
  - apply IZR_lt. exact Hy.
Qed.

(** The years projected are 1, 2, ... up to the smaller of the timeline and
    the configured horizon; when either is below 1 there is no projection at
    all (and no division by the timeline). *)
Theorem projected_years
    (params : execution_parameters) (draws : nat -> R)
    (baseline_cap total_percent_change : R) (timeline_years : Z) :
  map year (_generate_yearly_projections params draws baseline_cap
              total_percent_change timeline_years)
  = map Z.of_nat
        (seq 1 (Z.to_nat (Z.min timeline_years (max_projection_years params)))) /\
  ((timeline_years < 1 \/ max_projection_years params < 1)%Z ->
   _generate_yearly_projections params draws baseline_cap
     total_percent_change timeline_years = []).
Proof.
  rewrite projections_as_rounds. split.
  - rewrite map_map. cbn [project_year year].
    rewrite <- seq_shift, map_map. apply map_ext. intros k. lia.
  - intros Hsmall.
    replace (Z.to_nat (Z.min timeline_years (max_projection_years params))) with 0%nat
      by lia.
    reflexivity.
Qed.

Lemma projected_years_witness :
  _generate_yearly_projections
    {| max_projection_years := 3; confidence_threshold := 0.8 |} (fun _ => 0) 1000 8 0
  = [].
Proof.
  apply (projected_years {| max_projection_years := 3; confidence_threshold := 0.8 |}
                         (fun _ => 0) 1000 8 0).
  left. lia.
Defined.

(** Every year's cumulative change is a share of the total change that lies
    strictly between 0 and 1 and grows from year to year: for a positive
    total it stays below the total and increases, for a negative total it
    stays above the total and decreases. *)
Theorem cumulative_change_partial_and_growing
    (params : execution_parameters) (draws : nat -> R)
    (baseline_cap total_percent_change : R) (timeline_years : Z) (p q : projection) :
  In p (_generate_yearly_projections params draws baseline_cap total_percent_change
                                     timeline_years) ->
  In q (_generate_yearly_projections params draws baseline_cap total_percent_change
                                     timeline_years) ->
  (0 < total_percent_change ->
     0 < cumulative_change_percent p < total_percent_change /\
     ((year p < year q)%Z ->
      cumulative_change_percent p < cumulative_change_percent q)) /\
  (total_percent_change < 0 ->
     total_percent_change < cumulative_change_percent p < 0 /\
     ((year p < year q)%Z ->
      cumulative_change_percent q < cumulative_change_percent p)) /\
  (total_percent_change = 0 -> cumulative_change_percent p = 0).
Proof.
  intros Hp Hq.
  apply in_projections in Hp as (i & Hi & ->).
  apply in_projections in Hq as (j & Hj & ->).
  cbn [project_year year cumulative_change_percent].
  rewrite !capped_progress by lia.
  pose proof (s_curve_range (IZR (1 + Z.of_nat i) / IZR timeline_years)) as [Hlo Hhi].
  assert (Hgrow : (1 + Z.of_nat i < 1 + Z.of_nat j)%Z ->
                  s_curve (IZR (1 + Z.of_nat i) / IZR timeline_years)
                  < s_curve (IZR (1 + Z.of_nat j) / IZR timeline_years)).
  { intros Hlt. apply s_curve_increasing. apply progress_increasing; lia. }
  revert Hlo Hhi Hgrow.
  generalize (s_curve (IZR (1 + Z.of_nat i) / IZR timeline_years)).
  generalize (s_curve (IZR (1 + Z.of_nat j) / IZR timeline_years)).
  intros sj si Hlo Hhi Hgrow.
  split; [|split].
  - intros Hpos. split; [nra|]. intros Hlt. specialize (Hgrow Hlt). nra.
  - intros Hneg. split; [nra|]. intros Hlt. specialize (Hgrow Hlt). nra.
  - intros ->. ring.
Qed.

Lemma cumulative_change_partial_and_growing_witness :
  let params := {| max_projection_years := 3; confidence_threshold := 0.8 |} in
  let projections := _generate_yearly_projections params (fun _ => 1) 1000 8 3 in
  let p := project_year params 1000 8 3 1 1 in
  let q := project_year params 1000 8 3 3 1 in
  0 < cumulative_change_percent p < 8 /\
  cumulative_change_percent p < cumulative_change_percent q.
Proof.
  intros params projections p q.
  destruct (cumulative_change_partial_and_growing params (fun _ => 1) 1000 8 3 p q)
    as (Hpos & _ & _).
  - left. reflexivity.
  - right. right. left. reflexivity.
  - destruct Hpos as [Hrange Hgrow]; [lra|].
    split; [exact Hrange|]. apply Hgrow. simpl. lia.
Defined.

(** The confidence level of every projection is at least 0.5 and at most
    the larger of 0.5 and the configured threshold, and it never goes up from
    one year to a later one. *)
Theorem confidence_levels_floor_and_decay
    (params : execution_parameters) (draws : nat -> R)
    (baseline_cap total_percent_change : R) (timeline_years : Z) (p q : projection) :
  In p (_generate_yearly_projections params draws baseline_cap total_percent_change
                                     timeline_years) ->
  In q (_generate_yearly_projections params draws baseline_cap total_percent_change
                                     timeline_years) ->
  0.5 <= confidence_level p /\
  confidence_level p <= Py.rmax 0.5 (confidence_threshold params) /\
  ((year p <= year q)%Z -> confidence_level q <= confidence_level p).
Proof.
  intros Hp Hq.
  apply in_projections in Hp as (i & Hi & ->).
  apply in_projections in Hq as (j & Hj & ->).
  cbn [project_year year confidence_level].
  replace (1 + Z.of_nat i - 1)%Z with (Z.of_nat i) by lia.
  replace (1 + Z.of_nat j - 1)%Z with (Z.of_nat j) by lia.
  assert (Hi0 : 0 <= IZR (Z.of_nat i)) by (apply IZR_le; lia).
  assert (Hmono : (1 + Z.of_nat i <= 1 + Z.of_nat j)%Z ->
                  IZR (Z.of_nat i) <= IZR (Z.of_nat j)) by (intros; apply IZR_le; lia).
  revert Hi0 Hmono. generalize (IZR (Z.of_nat i)). generalize (IZR (Z.of_nat j)).
  intros rj ri Hi0 Hmono. unfold Py.rmax.
  repeat match goal with
         | |- context [Rlt_dec ?a ?b] => destruct (Rlt_dec a b)
         end;
    repeat split; try lra; intros Hle; specialize (Hmono Hle); lra.
Qed.

Lemma confidence_levels_floor_and_decay_witness :
  let params := {| max_projection_years := 3; confidence_threshold := 0.8 |} in
  let p := project_year params 1000 8 3 1 1 in
  let q := project_year params 1000 8 3 3 1 in
  0.5 <= confidence_level p /\ confidence_level q <= confidence_level p.
Proof.
  intros params p q.
  destruct (confidence_levels_floor_and_decay params (fun _ => 1) 1000 8 3 p q)
    as (Hfloor & _ & Hdecay).
  - left. reflexivity.
  - right. right. left. reflexivity.
  - split; [exact Hfloor|]. apply Hdecay. simpl. lia.
Defined.

(** When the timeline is longer than the configured horizon the projections
    stop at the horizon: the last cumulative change is the total times
    s(horizon / timeline), a share strictly below the s(1) of a full
    timeline. *)
Theorem truncated_horizon_stops_short
    (params : execution_parameters) (draws : nat -> R)
    (baseline_cap total_percent_change : R) (timeline_years : Z) :
  (1 <= max_projection_years params)%Z ->
  (max_projection_years params < timeline_years)%Z ->
  exists final,
    last (_generate_yearly_projections params draws baseline_cap
            total_percent_change timeline_years) = Some final /\
    year final = max_projection_years params /\
    cumulative_change_percent final
    = total_percent_change
      * s_curve (IZR (max_projection_years params) / IZR timeline_years) /\
    s_curve (IZR (max_projection_years params) / IZR timeline_years) < s_curve 1.
Proof.
  intros Hmax Hlong. rewrite projections_as_rounds.
  destruct (Z.to_nat (Z.min timeline_years (max_projection_years params)))
    as [|m] eqn:E; [lia|].
  rewrite seq_S, map_app. cbn [map Nat.add].
  eexists. split; [apply last_snoc|].
  cbn [project_year year cumulative_change_percent].
  assert (Hyear : (1 + Z.of_nat m)%Z = max_projection_years params) by lia.
  rewrite Hyear. split; [reflexivity|].
  rewrite capped_progress by lia. split; [reflexivity|].
  apply s_curve_increasing.
  replace 1 with (IZR timeline_years / IZR timeline_years)
    by (unfold Rdiv; apply Rinv_r; apply not_0_IZR; lia).
  apply progress_increasing; lia.
Qed.

Lemma truncated_horizon_stops_short_witness :
  let params := {| max_projection_years := 2; confidence_threshold := 0.8 |} in
  exists final,
    last (_generate_yearly_projections params (fun _ => 0) 1000 15 3) = Some final /\
    year final = 2%Z /\
    cumulative_change_percent final = 15 * s_curve (IZR 2 / IZR 3).
Proof.
  intros params.
  destruct (truncated_horizon_stops_short params (fun _ => 0) 1000 15 3)
    as (final & Hlast & Hyear & Hcum & _).
  - simpl. lia.
  - simpl. lia.
  - exists final. split; [exact Hlast|]. split; [exact Hyear | exact Hcum].
Defined.

(** The total percent change of a forecast is the net change divided by
    the baseline market cap, times 100, when that cap is positive, and it
    then has the sign of the net change; with a baseline that is not positive
    it is 0 and so is every cumulative change.  The timeline is 3 years for
    "growth", 2 for "decline", 1 for "stagnation" and 3 for any other
    direction. *)
Theorem quantified_sector_change
    (params : execution_parameters) (draws : nat -> R) (flow : sector_flow) :
  let forecast := _quantify_single_sector params draws flow in
  (0 < current_market_cap flow ->
     total_percent_change forecast
     = net_change flow / current_market_cap flow * 100 /\
     (0 <= net_change flow -> 0 <= total_percent_change forecast) /\
     (net_change flow <= 0 -> total_percent_change forecast <= 0)) /\
  (current_market_cap flow <= 0 ->
     total_percent_change forecast = 0 /\
     forall p, In p (yearly_projections forecast) -> cumulative_change_percent p = 0) /\
  (impact_direction flow = "growth" -> absorption_timeline_years forecast = 3%Z) /\
  (impact_direction flow = "decline" -> absorption_timeline_years forecast = 2%Z) /\
  (impact_direction flow = "stagnation" -> absorption_timeline_years forecast = 1%Z) /\
  (impact_direction flow <> "growth" -> impact_direction flow <> "decline" ->
   impact_direction flow <> "stagnation" -> absorption_timeline_years forecast = 3%Z).
Proof.
  unfold _quantify_single_sector; cbv zeta.
  cbn [total_percent_change yearly_projections absorption_timeline_years].
  split; [|split].
  - intros Hcap. destruct (Rlt_dec 0 (current_market_cap flow)); [|lra].
    pose proof (Rinv_0_lt_compat _ Hcap) as Hinv.
    split; [reflexivity|]. unfold Rdiv. split; intros Hnet; nra.
  - intros Hcap. destruct (Rlt_dec 0 (current_market_cap flow)); [lra|].
    split; [reflexivity|]. intros p Hp.
    apply in_projections in Hp as (k & _ & ->).
    cbn [project_year cumulative_change_percent]. ring.
  - unfold _calculate_absorption_timeline.
    repeat split.
    + intros ->. reflexivity.
    + intros ->. reflexivity.
    + intros ->. reflexivity.
    + intros Hg Hd Hs. cbn [list_to_map foldr uncurry fst snd].
      rewrite !lookup_insert_ne, lookup_empty by congruence. reflexivity.
Qed.

Lemma quantified_sector_change_witness :
  let flow := {| flow_sector_id := "energy"; flow_sector_name := "Energy";
                 current_market_cap := 2000; net_change := -240;
                 impact_direction := "decline" |} in
  let forecast := _quantify_single_sector
                    {| max_projection_years := 3; confidence_threshold := 0.8 |}
                    (fun _ => 0) flow in
  total_percent_change forecast <= 0 /\
  absorption_timeline_years forecast = 2%Z.
Proof.
  intros flow forecast.
  destruct (quantified_sector_change
              {| max_projection_years := 3; confidence_threshold := 0.8 |}
              (fun _ => 0) flow) as (Hpos & _ & _ & Hdecline & _).
  split.
  - destruct Hpos as (_ & _ & Hneg); [simpl; lra|]. apply Hneg. simpl. lra.
  - apply Hdecline. reflexivity.
Defined.

End YearlyProjections.


(** * Further properties of agent 06: the whole portfolio *)

Section PortfolioSummary.
Import PortfolioReallocator.

Example reallocation_of_two :
  let sectors :=
    [ {| taxonomy_sector_id := "energy"; taxonomy_sector_name := "Energy";
         taxonomy_total_market_cap := 1000;
         taxonomy_companies :=
           [ {| taxonomy_ticker := "XOM"; taxonomy_sector_weight_percent := 60 |};
             {| taxonomy_ticker := "CVX"; taxonomy_sector_weight_percent := 40 |} ] |} ] in
  let companies :=
    [ {| ticker := "XOM"; company_name := "Exxon"; market_cap := 600; weight_percent := 3 |};
      {| ticker := "CVX"; company_name := "Chevron"; market_cap := 400; weight_percent := 2 |};
      {| ticker := "ZZZZ"; company_name := "Unknown"; market_cap := 10; weight_percent := 1 |} ] in
  let forecasts :=
    [ {| forecast_sector_id := "energy"; forecast_timeline_years := Some 2%Z;
         forecast_body := {| total_percent_change := -12; yearly_projections := [] |} |} ] in
  option_map (fun r => (projection_timeline_years r,
                        map (fun e => (summary_sector_id e, summary_companies_count e,
                                       Qred (original_portfolio_weight e)))
                            (sector_summary r)))
             (reallocate_portfolio companies sectors forecasts)
  = Some (2%Z, [ ("energy", 2%Z, 5); ("other", 1%Z, 1) ]).
Proof. vm_compute. reflexivity. Qed.

Lemma update_summary_ids (c : company) (r : reallocated_company)
      (summary : list sector_summary_entry) (sid : string) :
  In sid (map summary_sector_id (update_summary c r summary)) <->
  sid = out_sector_id r \/ In sid (map summary_sector_id summary).
Proof.
  induction summary as [|e rest IH]; cbn [update_summary].
  - simpl. intuition congruence.
  - destruct (String.eqb (summary_sector_id e) (out_sector_id r)) eqn:E.
    + apply String.eqb_eq in E. simpl. rewrite <- E. intuition congruence.
    + cbn [map In]. rewrite IH. intuition congruence.
Qed.

Lemma update_summary_nodup (c : company) (r : reallocated_company)
      (summary : list sector_summary_entry) :
  List.NoDup (map summary_sector_id summary) ->
  List.NoDup (map summary_sector_id (update_summary c r summary)).
Proof.
  induction summary as [|e rest IH]; cbn [update_summary]; intros Hnd.
  - simpl. constructor; [intros [] | constructor].
  - inversion Hnd as [|? ? Hnotin Hrest]; subst.
    destruct (String.eqb (summary_sector_id e) (out_sector_id r)) eqn:E.
    + simpl. constructor; assumption.
    + cbn [map]. constructor; [|exact (IH Hrest)].
      rewrite update_summary_ids. intros [Heq|Hin]; [|contradiction].
      rewrite Heq, String.eqb_refl in E. discriminate.
Qed.

Lemma update_summary_counts (c : company) (r : reallocated_company)
      (summary : list sector_summary_entry) :
  fold_right Z.add 0%Z (map summary_companies_count (update_summary c r summary))
  = (fold_right Z.add 0%Z (map summary_companies_count summary) + 1)%Z.
Proof.
  induction summary as [|e rest IH]; cbn [update_summary].
  - reflexivity.
  - destruct (String.eqb (summary_sector_id e) (out_sector_id r)).
    + cbn [map fold_right summary_companies_count]. lia.
    + cbn [map fold_right]. rewrite IH. lia.
Qed.

(** The reallocation fails exactly when there is no sector forecast (the
    maximum of the timelines is then taken over an empty sequence).  When it
    succeeds there is one reallocated company per company of the portfolio,
    the sector summaries have distinct sectors, their counts add up to the
    number of companies, and each summary's contribution is its projected
    weight minus its original weight. *)
Theorem portfolio_summary_totals
    (portfolio_companies : list company) (sectors : list taxonomy_sector)
    (sector_forecasts : list forecast_entry) :
  (reallocate_portfolio portfolio_companies sectors sector_forecasts = None <->
   sector_forecasts = []) /\
  forall r,
    reallocate_portfolio portfolio_companies sectors sector_forecasts = Some r ->
    List.length (reallocated_companies r) = List.length portfolio_companies /\
    List.NoDup (map summary_sector_id (sector_summary r)) /\
    fold_right Z.add 0%Z (map summary_companies_count (sector_summary r))
    = Z.of_nat (List.length portfolio_companies) /\
    forall entry, In entry (sector_summary r) ->
      contribution_to_portfolio_change entry
      = projected_portfolio_weight entry - original_portfolio_weight entry.
Proof.
  unfold reallocate_portfolio; cbv zeta.
  set (realloc := fun c : company =>
         _reallocate_single_company c (_create_sector_company_map sectors)
           (fold_left (fun impact_map entry =>
                         <[forecast_sector_id entry := forecast_body entry]> impact_map)
                      sector_forecasts ∅)).
  split.
  - destruct sector_forecasts as [|f fs]; cbn [map max_of].
    + split; reflexivity.
    + split; discriminate.
  - intros r Hr.
    destruct (max_of (map (fun entry => default 3%Z (forecast_timeline_years entry))
                          sector_forecasts)) as [timeline|]; [|discriminate Hr].
    injection Hr as <-. cbn [reallocated_companies sector_summary].
    assert (Hfold : forall (cs : list company) (summary : list sector_summary_entry),
               let final := fold_left (fun summary c => update_summary c (realloc c) summary)
                                      cs summary in
               (List.NoDup (map summary_sector_id summary) ->
                List.NoDup (map summary_sector_id final)) /\
               fold_right Z.add 0%Z (map summary_companies_count final)
               = (fold_right Z.add 0%Z (map summary_companies_count summary)
                  + Z.of_nat (List.length cs))%Z).
    { induction cs as [|c cs IH]; intros summary; cbv zeta; cbn [fold_left map].
      - split; [auto|]. cbn [List.length]; lia.
      - destruct (IH (update_summary c (realloc c) summary)) as (Hnd & Hn).
        pose proof (update_summary_counts c (realloc c) summary) as Un.
        split; [intros H; apply Hnd, update_summary_nodup, H|].
        rewrite Hn, Un; cbn [List.length]; lia. }
    destruct (Hfold portfolio_companies []) as (Hnd & Hn).
    rewrite !map_map. cbn [summary_sector_id summary_companies_count].
    split; [apply length_map|]. split; [exact (Hnd (List.NoDup_nil _))|].
    split; [exact Hn|].
    intros entry Hentry. apply in_map_iff in Hentry as (e & <- & _). reflexivity.
Qed.

Lemma portfolio_summary_totals_witness :
  let companies :=
    [ {| ticker := "XOM"; company_name := "Exxon"; market_cap := 600; weight_percent := 3 |};
      {| ticker := "ZZZZ"; company_name := "Unknown"; market_cap := 10; weight_percent := 1 |} ] in
  let forecasts :=
    [ {| forecast_sector_id := "energy"; forecast_timeline_years := None;
         forecast_body := {| total_percent_change := 8; yearly_projections := [] |} |} ] in
  exists r,
    reallocate_portfolio companies [] forecasts = Some r /\
    List.NoDup (map summary_sector_id (sector_summary r)) /\
    fold_right Z.add 0%Z (map summary_companies_count (sector_summary r)) = 2%Z.
Proof.
  intros companies forecasts.
  destruct (reallocate_portfolio companies [] forecasts) as [r|] eqn:E;
    [|vm_compute in E; discriminate E].
  exists r. split; [reflexivity|].
  destruct (portfolio_summary_totals companies [] forecasts) as [_ Htotals].
  destruct (Htotals r E) as (_ & Hnd & Hcount & _).
  split; [exact Hnd | exact Hcount].
Defined.

(** The sector information recorded for a company of a sector. *)
Let recorded (sector : taxonomy_sector) (company : taxonomy_company) : sector_info :=
  {| sector_id := taxonomy_sector_id sector;
     sector_name := taxonomy_sector_name sector;
     sector_market_cap := taxonomy_total_market_cap sector;
     sector_weight_percent := taxonomy_sector_weight_percent company |}.

Let record_sector (sector_map : gmap string sector_info) (sector : taxonomy_sector)
    : gmap string sector_info :=
  fold_left (fun sector_map company =>
               <[taxonomy_ticker company := recorded sector company]> sector_map)
            (taxonomy_companies sector) sector_map.

Lemma record_companies_lookup (sector : taxonomy_sector)
      (companies : list taxonomy_company) (t : string) :
  forall sector_map : gmap string sector_info,
  let result :=
    fold_left (fun sector_map company =>
                 <[taxonomy_ticker company := recorded sector company]> sector_map)
              companies sector_map in
  (forall info, result !! t = Some info ->
     sector_map !! t = Some info \/
     exists company, In company companies /\ taxonomy_ticker company = t /\
                     info = recorded sector company) /\
  (is_Some (sector_map !! t) -> is_Some (result !! t)) /\
  ((exists company, In company companies /\ taxonomy_ticker company = t) ->
   is_Some (result !! t)).
Proof.
  induction companies as [|company companies IH]; intros sector_map; cbv zeta;
    cbn [fold_left].
  - split; [auto|]. split; [auto|]. intros (company & [] & _).
  - destruct (IH (<[taxonomy_ticker company := recorded sector company]> sector_map))
      as (Hsound & Hkeep & Hnew).
    split; [|split].
    + intros info Hinfo. destruct (Hsound info Hinfo) as [Hold|(co & Hin & Ht & Heq)].
      * destruct (decide (taxonomy_ticker company = t)) as [Heq|Hne].
        -- rewrite Heq, lookup_insert_eq in Hold. injection Hold as <-.
           right. exists company. split; [left; reflexivity | auto].
        -- rewrite lookup_insert_ne in Hold by exact Hne. left. exact Hold.
      * right. exists co. split; [right; exact Hin | auto].
    + intros Hsome. apply Hkeep.
      destruct (decide (taxonomy_ticker company = t)) as [Heq|Hne].
      * rewrite Heq, lookup_insert_eq. eauto.
      * rewrite lookup_insert_ne by exact Hne. exact Hsome.
    + intros (co & [<-|Hin] & Ht).
      * apply Hkeep. rewrite Ht, lookup_insert_eq. eauto.
      * apply Hnew. exists co. auto.
Qed.

Lemma record_sectors_lookup (sectors : list taxonomy_sector) (t : string) :
  forall sector_map : gmap string sector_info,
  let result := fold_left record_sector sectors sector_map in
  (forall info, result !! t = Some info ->
     sector_map !! t = Some info \/
     exists sector company,
       In sector sectors /\ In company (taxonomy_companies sector) /\
       taxonomy_ticker company = t /\ info = recorded sector company) /\
  (is_Some (sector_map !! t) -> is_Some (result !! t)) /\
  ((exists sector company,
       In sector sectors /\ In company (taxonomy_companies sector) /\
       taxonomy_ticker company = t) ->
   is_Some (result !! t)).
Proof.
  induction sectors as [|sector sectors IH]; intros sector_map; cbv zeta;
    cbn [fold_left].
  - split; [auto|]. split; [auto|]. intros (sector & company & [] & _).
  - destruct (IH (record_sector sector_map sector)) as (Hsound & Hkeep & Hnew).
    destruct (record_companies_lookup sector (taxonomy_companies sector) t sector_map)
      as (Isound & Ikeep & Inew).
    split; [|split].
    + intros info Hinfo.
      destruct (Hsound info Hinfo) as [Hold|(se & co & Hse & Hco & Ht & Heq)].
      * destruct (Isound info Hold) as [Hstart|(co & Hco & Ht & Heq)].
        -- left. exact Hstart.
        -- right. exists sector, co. split; [left; reflexivity | auto].
      * right. exists se, co. split; [right; exact Hse | auto].
    + intros Hsome. apply Hkeep, Ikeep, Hsome.
    + intros (se & co & [<-|Hse] & Hco & Ht).
      * apply Hkeep, Inew. exists co. auto.
      * apply Hnew. exists se, co. auto.
Qed.

(** The sector map has an entry for exactly the tickers that some sector of
    the taxonomy lists, and the entry of a ticker carries the identifier,
    name and market cap of a sector that lists it together with the sector
    weight of the company there.  So a portfolio company that the taxonomy
    lists is reallocated under such a sector and weight, not under the
    fallback. *)
Theorem sector_company_map_sound_complete
    (sectors : list taxonomy_sector) (t : string) :
  (is_Some (_create_sector_company_map sectors !! t) <->
   exists sector company,
     In sector sectors /\ In company (taxonomy_companies sector) /\
     taxonomy_ticker company = t) /\
  (forall info, _create_sector_company_map sectors !! t = Some info ->
     exists sector company,
       In sector sectors /\ In company (taxonomy_companies sector) /\
       taxonomy_ticker company = t /\
       sector_id info = taxonomy_sector_id sector /\
       sector_name info = taxonomy_sector_name sector /\
       sector_market_cap info = taxonomy_total_market_cap sector /\
       sector_weight_percent info = taxonomy_sector_weight_percent company) /\
  (forall (c : company) (sector_impact_map : gmap string sector_forecast),
     ticker c = t ->
     is_Some (_create_sector_company_map sectors !! t) ->
     exists sector company,
       In sector sectors /\ In company (taxonomy_companies sector) /\
       taxonomy_ticker company = t /\
       out_sector_id (_reallocate_single_company
                        c (_create_sector_company_map sectors) sector_impact_map)
       = taxonomy_sector_id sector /\
       out_sector_weight_percent
         (_reallocate_single_company
            c (_create_sector_company_map sectors) sector_impact_map)
       = taxonomy_sector_weight_percent company).
Proof.
  destruct (record_sectors_lookup sectors t ∅) as (Hsound & _ & Hnew).
  change (fold_left record_sector sectors ∅) with (_create_sector_company_map sectors)
    in Hsound, Hnew.
  assert (Hinfo : forall info, _create_sector_company_map sectors !! t = Some info ->
            exists sector company,
              In sector sectors /\ In company (taxonomy_companies sector) /\
              taxonomy_ticker company = t /\ info = recorded sector company).
  { intros info Hlook. destruct (Hsound info Hlook) as [Hempty|Hfound].
    - rewrite lookup_empty in Hempty. discriminate Hempty.
    - exact Hfound. }
  split; [|split].
  - split; [|exact Hnew].
    intros [info Hlook]. destruct (Hinfo info Hlook) as (se & co & Hse & Hco & Ht & _).
    exists se, co. auto.
  - intros info Hlook. destruct (Hinfo info Hlook) as (se & co & Hse & Hco & Ht & ->).
    exists se, co. repeat split; auto.
  - intros c sector_impact_map Hticker [info Hlook].
    destruct (Hinfo info Hlook) as (se & co & Hse & Hco & Ht & ->).
    exists se, co. unfold _reallocate_single_company; cbv zeta.
    cbn [out_sector_id out_sector_weight_percent]. rewrite Hticker, Hlook.
    repeat split; auto.
Qed.

Lemma sector_company_map_sound_complete_witness :
  let sectors :=
    [ {| taxonomy_sector_id := "energy"; taxonomy_sector_name := "Energy";
         taxonomy_total_market_cap := 1000;
         taxonomy_companies :=
           [ {| taxonomy_ticker := "XOM"; taxonomy_sector_weight_percent := 60 |} ] |} ] in
  exists sector company,
    In sector sectors /\ In company (taxonomy_companies sector) /\
    taxonomy_ticker company = "XOM".
Proof.
  intros sectors.
  apply (sector_company_map_sound_complete sectors "XOM").
  vm_compute. eauto.
Defined.

End PortfolioSummary.

(** * Instances of the properties of agents 02 and 03 *)

Section Instances.


Lemma unshadowed_listings_exact_witness :
  SectorClassifier._assign_sector_by_ticker "NEE" SectorClassifier.ticker_sectors
  = "utilities".
Proof.
  apply (unshadowed_listings_exact "utilities" "NEE").
  - apply list_elem_of_In. compute_done.
  - simpl. intros H. repeat (destruct H as [H|H]; [discriminate H|]). exact H.
Defined.

Lemma taxonomy_sectors_well_formed_witness :
  let data := {| SectorClassifier.data_companies := Some
       [ {| SectorClassifier.data_ticker := Some "AAPL";
            SectorClassifier.data_company_name := Some "Apple";
            SectorClassifier.data_market_cap := Some 300;
            SectorClassifier.data_business_description := None |};
         {| SectorClassifier.data_ticker := Some "MSFT";
            SectorClassifier.data_company_name := Some "Microsoft";
            SectorClassifier.data_market_cap := Some 100;
            SectorClassifier.data_business_description := None |} ] |} in
  let s := nth 0 (SectorClassifier._create_sector_taxonomy data)
               (SectorClassifier.build_sector ("", [])) in
  SectorClassifier.companies s <> [] /\
  SectorClassifier.companies_count s = List.length (SectorClassifier.companies s).
Proof.
  intros data s.
  destruct (taxonomy_sectors_well_formed data) as [_ Hsectors].
  destruct (Hsectors s) as (Hne & Hcount & _).
  - vm_compute. left. reflexivity.
  - split; [exact Hne | exact Hcount].
Defined.

Lemma rationale_direction_matches_flow_direction_witness :
  LegislativeImpactAnalyzer.rationale_direction 9 = "positive".
Proof.
  apply (rationale_direction_matches_flow_direction 9). discriminate.
Defined.

End Instances.


(** * The same formulas in binary64 *)

Section Binary64Facts.

Import PrimFloat.
#[local] Set Warnings "-inexact-float".

Example weight_factor_binary64_at_20 :
  Binary64._calculate_weight_factor 20 = 1.275%float.
Proof. reflexivity. Qed.

Example weight_factor_binary64_branches_meet_at_5 :
  Binary64._calculate_weight_factor 5 = 0.8%float /\
  (0.8 + ((5 - 5) / 10) * 0.4)%float = 0.8%float.
Proof. split; reflexivity. Qed.



End Binary64Facts.
